(** * Netcup dynamic inventory plugin (plugins/inventory/netcup.py)

    A shallow embedding of [InventoryModule]: the host-naming rule, the
    address selection, the per-record emission of inventory facts
    ([_parse_server]) and the driver ([parse]).

    The plugin never reads the inventory back; it only issues the four
    calls [add_group], [add_host], [set_variable] and [add_child] on
    [self.inventory].  A run is therefore modelled as the journal of the
    calls issued, in order, together with the way the run ended (normal
    return or a raised exception).  The journal is then replayed on a
    model of the inventory store to speak about its contents. *)

From stdpp Require Import base strings list gmap fin_maps fin_sets.

Open Scope string_scope.
Open Scope list_scope.

(** ** Values and exceptions *)

(** The Python values that end up as host variables: strings
    ([vServerName], [vServerNickname], [status], an IP address, the
    computed name) and the boolean [rebootRecommended]. *)
Inductive value : Type :=
  | VStr (s : string)
  | VBool (b : bool).

#[global] Instance value_eq_dec : EqDecision value.
Proof. solve_decision. Defined.

(** Exceptions that can leave the plugin. [PyException] stands for
    whatever the web-service client raises; [AnsibleOptionsError] is the
    configuration error of the framework for an option whose value is
    not among its declared choices, with the option and the value. *)
Inductive exn : Type :=
  | IndexError
  | TypeError
  | AnsibleParserError (msg : string)
  | AnsibleOptionsError (option value : string)
  | PyException (msg : string).

Inductive outcome (A : Type) : Type :=
  | Ok (a : A)
  | Raise (e : exn).
Arguments Ok {A} a.
Arguments Raise {A} e.

(** ** Calls on [self.inventory] *)

Inductive call : Type :=
  | AddGroup (group : string)
  | AddHost (host : string)
  | SetVariable (entity key : string) (v : value)
  | AddChild (group child : string).

#[global] Instance call_eq_dec : EqDecision call.
Proof. solve_decision. Defined.

(** ** The effect monad: journal of inventory calls, then a result or an
    exception.  Calls issued before an exception stay in the journal:
    the inventory is not transactional.  The four inventory calls are
    taken to return normally: exceptions that the store itself may raise
    are outside the model. *)

Definition M (A : Type) : Type := (list call * outcome A)%type.

Definition journal {A} (m : M A) : list call := m.1.
Definition result {A} (m : M A) : outcome A := m.2.

#[global] Instance M_ret : MRet M := λ A a, ([], Ok a).

#[global] Instance M_bind : MBind M := λ A B k m,
  match m.2 with
  | Ok a => (m.1 ++ (k a).1, (k a).2)
  | Raise e => (m.1, Raise e)
  end.

Definition raise {A} (e : exn) : M A := ([], Raise e).

Definition lift {A} (o : outcome A) : M A := ([], o).

(** [try: m  except Exception as err: handler err] *)
Definition try_except {A} (m : M A) (handler : exn → M A) : M A :=
  match m.2 with
  | Ok a => m
  | Raise e => (m.1 ++ (handler e).1, (handler e).2)
  end.

(** [for x in l: body x] *)
Fixpoint for_each {A} (l : list A) (body : A → M unit) : M unit :=
  match l with
  | [] => mret tt
  | x :: l' => body x ;; for_each l' body
  end.

(** [l[i]] for a non-negative index. *)
Definition getitem {A} (l : list A) (i : nat) : M A :=
  match l !! i with
  | Some x => mret x
  | None => raise IndexError
  end.

Definition add_group (group : string) : M unit := ([AddGroup group], Ok tt).
Definition add_host (host : string) : M unit := ([AddHost host], Ok tt).
Definition set_variable (entity key : string) (v : value) : M unit :=
  ([SetVariable entity key v], Ok tt).
Definition add_child (group child : string) : M unit :=
  ([AddChild group child], Ok tt).

(** ** Data *)

(** The detail record returned by [getVServerInformation]; only the
    fields the plugin reads, at the types it uses them: the nickname is
    a string (its [len] is taken), [ips] is a list. *)
Record server_data : Type := mk_server_data {
  vServerName : string;
  vServerNickname : string;
  status : string;
  ips : list string;
  rebootRecommended : bool;
}.

(** The plugin options of DOCUMENTATION, as [self.get_option] returns
    them.  All are of type str; the declared choices of
    [ansible_host_type] are not checked by the plugin code itself but
    when the configuration is loaded (see [_read_config_data]). *)
Record options : Type := mk_options {
  customer_id : string;
  password : string;
  wsdl_url : string;
  group : string;
  ansible_host_type : string;
  ansible_host_suffix : string;
  hostname_prefix : string;
  hostname_suffix : string;
}.

(** The zeep client: [ZClient(wsdl_url)] may itself raise; the service it
    gives access to has the two operations the plugin calls.
    [getVServers] answers a list of server names or [None]. *)
Record service : Type := mk_service {
  getVServers : string → string → outcome (option (list string));
  getVServerInformation :
    string → string → string → string → outcome server_data;
}.

Definition client : Type := string → outcome service.

(** ** The plugin *)

(** [_get_server_list], lines 164-176.  The message is not an f-string in
    the source, so it is the literal text. *)
Definition _get_server_list (ZClient : client) (wsdl_url username password : string)
  : M (option (list string)) :=
  client ← lift (ZClient wsdl_url);
  server_list ← try_except
    (lift (getVServers client username password))
    (λ err, raise (AnsibleParserError "Unable to get server list: {err}"));
  mret server_list.

(** [_get_server_info], lines 178-191. *)
Definition _get_server_info (ZClient : client)
    (wsdl_url username password server_name : string) : M server_data :=
  client ← lift (ZClient wsdl_url);
  server_info ← try_except
    (lift (getVServerInformation client username password server_name "en"))
    (λ err, raise (AnsibleParserError "Unable to get server information: {err}"));
  mret server_info.

(** Lines 194-203 of [_parse_server]: the display name. *)
Definition servername_of (self : options) (server_data : server_data) : string :=
  let srv_prefix := hostname_prefix self in
  let servername := srv_prefix in
  let servername :=
    if bool_decide (0 < String.length (vServerNickname server_data))
    then servername +:+ vServerNickname server_data
    else servername +:+ vServerName server_data in
  let srv_suffix := hostname_suffix self in
  let servername := servername +:+ srv_suffix in
  servername.

(** Lines 229-234: the dict [server_vars], in insertion order. *)
Definition server_vars (server_data : server_data) : list (string * value) :=
  [ ("server_name", VStr (vServerName server_data));
    ("server_nickname", VStr (vServerNickname server_data));
    ("reboot_recommended", VBool (rebootRecommended server_data));
    ("status", VStr (status server_data)) ].

(** [_parse_server], lines 193-239.  The [match] statement has no
    wildcard case: a mode that matches none of the three patterns falls
    through. *)
Definition _parse_server (self : options) (server_data : server_data) : M unit :=
  let servername := servername_of self server_data in
  if bool_decide (status server_data = "online") then
    add_host servername ;;
    (let mode := ansible_host_type self in
     if bool_decide (mode = "ip") then
       ip ← getitem (ips server_data) 0;
       set_variable servername "ansible_host" (VStr ip)
     else if bool_decide (mode = "name") then
       set_variable servername "ansible_host" (VStr servername)
     else if bool_decide (mode = "suffix") then
       ip ← getitem (ips server_data) 0;
       set_variable servername "ansible_host" (VStr ip)
     else mret tt) ;;
    for_each (server_vars server_data)
      (λ '(hostvar, ws_var),
         set_variable servername ("netcup_" +:+ hostvar) ws_var) ;;
    add_child (group self) servername
  else mret tt.

(** [not server_list]: [None] and the empty list are falsy. *)
Definition falsy (server_list : option (list string)) : bool :=
  match server_list with
  | None => true
  | Some [] => true
  | Some (_ :: _) => false
  end.

(** [len(server_list)] *)
Definition len (server_list : option (list string)) : M nat :=
  match server_list with
  | None => raise TypeError
  | Some l => mret (length l)
  end.

(** Iterating [server_list]. *)
Definition iter (server_list : option (list string)) : M (list string) :=
  match server_list with
  | None => raise TypeError
  | Some l => mret l
  end.

(** The modes that DOCUMENTATION declares as the choices of
    [ansible_host_type], lines 91-94. *)
Definition declared_mode (mode : string) : Prop :=
  mode = "ip" ∨ mode = "name" ∨ mode = "suffix".

#[global] Instance declared_mode_dec mode : Decision (declared_mode mode).
Proof. unfold declared_mode. apply _. Defined.

(** Modelled from the spec: [_read_config_data], called at line 252, is
    the configuration loading of the framework and is not part of the
    repository.  Of what it does, the options record is its result and
    one check is kept: the value of [ansible_host_type] has to be one of
    the declared choices, otherwise the run ends with the configuration
    error that the spec calls InvalidMode (unsupported address-selection
    mode, fatal). *)
Definition _read_config_data (self : options) : M unit :=
  if decide (declared_mode (ansible_host_type self)) then mret tt
  else raise (AnsibleOptionsError "ansible_host_type" (ansible_host_type self)).

(** Lines 254-272 of [parse], after the configuration is loaded.
    Reading the three options cannot fail on a record of options, so the
    [try] of lines 254-260 is the plain reading. *)
Definition parse_loaded (self : options) (ZClient : client) : M unit :=
  let wsdl_url := wsdl_url self in
  let wsdl_login := customer_id self in
  let wsdl_password := password self in
  server_list ← _get_server_list ZClient wsdl_url wsdl_login wsdl_password;
  if falsy server_list then
    raise (AnsibleParserError "Did not receive a server list from Webservice.")
  else
    n ← len server_list;
    if bool_decide (n = 0) then
      raise (AnsibleParserError "Empty server list")
    else
      add_group (group self) ;;
      servers ← iter server_list;
      for_each servers
        (λ server,
           info ← _get_server_info ZClient wsdl_url wsdl_login wsdl_password server;
           _parse_server self info).

(** [parse], lines 249-272: the configuration is loaded first (line
    252), then the servers are listed, fetched and processed. *)
Definition parse (self : options) (ZClient : client) : M unit :=
  _read_config_data self ;;
  parse_loaded self ZClient.

(** The inventory-building part of [parse], lines 269-272, over detail
    records that have already been fetched. *)
Definition build (self : options) (records : list server_data) : M unit :=
  add_group (group self) ;;
  for_each records (_parse_server self).

(** ** The inventory store *)

(** Modelled from the spec: the Inventory Sink is the inventory object of
    the orchestration tool, an external collaborator that is not part of
    the repository.  It is taken as the spec describes it (sections 3 and
    6): host entries, each with a bag of variables, and groups, each with
    the set of host entries that belong to it, behind the four
    operations add_group, add_host, set_variable and add_child.  Where
    the spec is silent the store behaves as a keyed store does: adding a
    group or a host whose name is already there changes nothing, setting
    a variable replaces its former value, and a call that names an
    unknown host or group is refused ([None]). *)
Record InventoryData : Type := mk_inventory {
  hosts : gmap string (gmap string value);
  groups : gmap string (gset string);
}.

Definition empty_inventory : InventoryData := mk_inventory ∅ ∅.

Definition sink_call (c : call) (inv : InventoryData) : option InventoryData :=
  match c with
  | AddGroup g =>
      match groups inv !! g with
      | Some _ => Some inv
      | None => Some (mk_inventory (hosts inv) (<[g := ∅]> (groups inv)))
      end
  | AddHost h =>
      match hosts inv !! h with
      | Some _ => Some inv
      | None => Some (mk_inventory (<[h := ∅]> (hosts inv)) (groups inv))
      end
  | SetVariable h k v =>
      match hosts inv !! h with
      | Some vars =>
          Some (mk_inventory (<[h := <[k := v]> vars]> (hosts inv)) (groups inv))
      | None => None
      end
  | AddChild g h =>
      match groups inv !! g, hosts inv !! h with
      | Some members, Some _ =>
          Some (mk_inventory (hosts inv) (<[g := {[h]} ∪ members]> (groups inv)))
      | _, _ => None
      end
  end.

(** Replaying a journal, call after call. *)
Fixpoint sink_run (cs : list call) (inv : InventoryData) : option InventoryData :=
  match cs with
  | [] => Some inv
  | c :: cs' =>
      match sink_call c inv with
      | Some inv' => sink_run cs' inv'
      | None => None
      end
  end.

(** ** Observations used in the statements *)

Definition online (server_data : server_data) : Prop :=
  status server_data = "online".

#[global] Instance online_dec sd : Decision (online sd).
Proof. unfold online. apply _. Defined.

(** The first element of the IP list, when there is one. *)
Definition primary_ip (server_data : server_data) : option string :=
  head (ips server_data).

(** The four namespaced variables of a record, as calls on host [n]. *)
Definition netcup_calls (n : string) (server_data : server_data) : list call :=
  [ SetVariable n "netcup_server_name" (VStr (vServerName server_data));
    SetVariable n "netcup_server_nickname" (VStr (vServerNickname server_data));
    SetVariable n "netcup_reboot_recommended" (VBool (rebootRecommended server_data));
    SetVariable n "netcup_status" (VStr (status server_data)) ].

(** The value last given to variable [key] of [host] in a journal. *)
Fixpoint last_set (host key : string) (cs : list call) : option value :=
  match cs with
  | [] => None
  | c :: cs' =>
      match last_set host key cs' with
      | Some v => Some v
      | None =>
          match c with
          | SetVariable h k v =>
              if bool_decide (k = key ∧ h = host) then Some v else None
          | _ => None
          end
      end
  end.

Definition hosts_added (cs : list call) : list string :=
  omap (λ c, match c with AddHost h => Some h | _ => None end) cs.

(** The calls of a record processed to the end with connection address
    [a] on host [n] in group [g]. *)
Definition full_calls (g n : string) (a : value) (server_data : server_data)
  : list call :=
  AddHost n :: SetVariable n "ansible_host" a ::
  netcup_calls n server_data ++ [AddChild g n].

(** ** Concrete configurations and records *)

Definition cfg (mode : string) : options :=
  mk_options "1234" "awesomepassword"
    "https://www.servercontrolpanel.de/WSEndUser?wsdl" "netcup" mode "" "" "".

Definition rec_v1 : server_data :=
  mk_server_data "v1" "" "online" ["1.2.3.4"] false.
Definition rec_v2 : server_data :=
  mk_server_data "v2" "web" "offline" ["5.6.7.8"] false.
Definition rec_web : server_data :=
  mk_server_data "v3" "web" "online" ["9.9.9.9"] true.
Definition rec_web' : server_data :=
  mk_server_data "v4" "web" "online" ["10.0.0.4"] false.
Definition rec_noip : server_data :=
  mk_server_data "v5" "" "online" [] false.
Definition rec_web_noip : server_data :=
  mk_server_data "v6" "web" "online" [] false.

(** ** Host variables *)

(** [set_variable] calls on one host, from a list of (key, value). *)
Definition setvars (n : string) (kvs : list (string * value)) : list call :=
  map (λ kv, SetVariable n kv.1 kv.2) kvs.

(** Writing a list of (key, value) into a bag of variables, in order. *)
Definition set_all (kvs : list (string * value)) (vars : gmap string value)
  : gmap string value :=
  foldl (λ m kv, <[kv.1 := kv.2]> m) vars kvs.

(** The variables a journal writes, whatever the host. *)
Definition vars_of_calls (cs : list call) : gmap string value :=
  foldl (λ m c, match c with SetVariable _ k v => <[k := v]> m | _ => m end) ∅ cs.

(** The variables that processing a record writes on its host. *)
Definition host_vars (self : options) (server_data : server_data)
  : gmap string value :=
  vars_of_calls (journal (_parse_server self server_data)).

(** The variable names written for a record processed to the end. *)
Definition written_keys (self : options) : list string :=
  (if decide (declared_mode (ansible_host_type self))
   then ["ansible_host"] else []) ++
  ["netcup_server_name"; "netcup_server_nickname";
   "netcup_reboot_recommended"; "netcup_status"].

(** The display names of the online records of a list, in order. *)
Definition online_names (self : options) (records : list server_data)
  : list string :=
  servername_of self <$> filter online records.

(** Two configurations that agree on every option but
    [ansible_host_suffix]. *)
Definition same_but_ansible_host_suffix (o1 o2 : options) : Prop :=
  customer_id o1 = customer_id o2 ∧ password o1 = password o2 ∧
  wsdl_url o1 = wsdl_url o2 ∧ group o1 = group o2 ∧
  ansible_host_type o1 = ansible_host_type o2 ∧
  hostname_prefix o1 = hostname_prefix o2 ∧
  hostname_suffix o1 = hostname_suffix o2.

(** A web service that lists [listing] and answers [detail] for every
    server name. *)
Definition fixed_client (listing : option (list string))
    (detail : string → server_data) : client :=
  λ _, Ok (mk_service (λ _ _, Ok listing) (λ _ _ name _, Ok (detail name))).

(** Every host of the inventory carries only variables that the
    configuration writes. *)
Definition tidy (self : options) (inv : InventoryData) : Prop :=
  ∀ h vars, hosts inv !! h = Some vars →
    dom vars ⊆ list_to_set (written_keys self).

(** ** File selection *)

(** [path.endswith(suffix)]: [suffix] is one of the tails of [path]. *)
Fixpoint endswith (path suffix : string) : bool :=
  if bool_decide (path = suffix) then true
  else match path with
       | EmptyString => false
       | String _ path' => endswith path' suffix
       end.

(** [verify_file], lines 241-247.  [super_verify_file] is the check of
    the base class, which the plugin calls first; [endswith] of a tuple
    holds when it holds of one of its members. *)
Definition verify_file (super_verify_file : string → bool) (path : string)
  : bool :=
  let valid := false in
  let valid :=
    if super_verify_file path then
      if existsb (endswith path) ["netcup.yaml"; "netcup.yml"]
      then true else valid
    else valid in
  valid.

(** ** More observations *)


(** The part of the display name that comes from the record, lines
    197-200. *)
Definition base_name (server_data : server_data) : string :=
  if bool_decide (0 < String.length (vServerNickname server_data))
  then vServerNickname server_data
  else vServerName server_data.

(** A call that only concerns the group [g] and hosts among [names]. *)
Definition in_scope (g : string) (names : list string) (c : call) : Prop :=
  match c with
  | AddGroup g' => g' = g
  | AddHost h => h ∈ names
  | SetVariable h _ _ => h ∈ names
  | AddChild g' h => g' = g ∧ h ∈ names
  end.

(** Two configurations that agree on every option the inventory building
    reads: they may differ in [customer_id], [password], [wsdl_url] and
    [ansible_host_suffix]. *)
Definition same_build_options (o1 o2 : options) : Prop :=
  group o1 = group o2 ∧
  ansible_host_type o1 = ansible_host_type o2 ∧
  hostname_prefix o1 = hostname_prefix o2 ∧
  hostname_suffix o1 = hostname_suffix o2.

(** The records that stop the processing: online, read by index, and
    without any IP. *)
Definition lacks_ip (self : options) (server_data : server_data) : Prop :=
  online server_data
  ∧ (ansible_host_type self = "ip" ∨ ansible_host_type self = "suffix")
  ∧ ips server_data = [].

(** A web service whose detail call fails with [e] for the server
    [bad] and answers [detail] for the others. *)
Definition flaky_service (listing : option (list string)) (bad : string)
    (e : exn) (detail : string → server_data) : service :=
  mk_service (λ _ _, Ok listing)
    (λ _ _ name _, if bool_decide (name = bad) then Raise e else Ok (detail name)).

(** The detail records of a small account, by server name. *)
Definition detail_of (name : string) : server_data :=
  if bool_decide (name = "v1") then rec_v1
  else if bool_decide (name = "v2") then rec_v2
  else if bool_decide (name = "v3") then rec_web
  else rec_noip.

(** The body of the loop of [parse], line 272. *)
Definition fetch_and_parse (self : options) (ZClient : client)
    (server : string) : M unit :=
  info ← _get_server_info ZClient (wsdl_url self) (customer_id self)
           (password self) server;
  _parse_server self info.

(** * The effect monad *)

Lemma bind_ok {A B} (m : M A) (k : A → M B) a :
  result m = Ok a →
  m ≫= k = (journal m ++ journal (k a), result (k a)).
Proof. unfold result, journal, mbind, M_bind. by intros ->. Qed.

Lemma bind_result_ok {A B} (m : M A) (k : A → M B) b :
  result (m ≫= k) = Ok b → ∃ a, result m = Ok a ∧ result (k a) = Ok b.
Proof.
  unfold result, mbind, M_bind. destruct (m.2) as [a | e]; simpl; [| done].
  intros H. by exists a.
Qed.

Lemma for_each_cons {A} (x : A) l body :
  for_each (x :: l) body = (body x ;; for_each l body).
Proof. done. Qed.

Lemma ret_bind {A B} (a : A) (k : A → M B) : ([], Ok a) ≫= k = k a.
Proof. unfold mbind, M_bind. simpl. by destruct (k a). Qed.

Lemma emit_bind {B} (c : call) (k : unit → M B) :
  ([c], Ok tt) ≫= k = (c :: journal (k tt), result (k tt)).
Proof. reflexivity. Qed.

(** * Processing one record *)

Lemma parse_server_offline self sd :
  status sd ≠ "online" → _parse_server self sd = ([], Ok tt).
Proof.
  intros Hoff. unfold _parse_server.
  by rewrite bool_decide_eq_false_2.
Qed.

Lemma parse_server_name self sd :
  online sd → ansible_host_type self = "name" →
  _parse_server self sd =
    (full_calls (group self) (servername_of self sd)
       (VStr (servername_of self sd)) sd, Ok tt).
Proof.
  unfold online. intros Hon Hm. unfold _parse_server.
  rewrite bool_decide_eq_true_2 by done. rewrite Hm. reflexivity.
Qed.

Lemma parse_server_ip self sd ip rest :
  online sd →
  ansible_host_type self = "ip" ∨ ansible_host_type self = "suffix" →
  ips sd = ip :: rest →
  _parse_server self sd =
    (full_calls (group self) (servername_of self sd) (VStr ip) sd, Ok tt).
Proof.
  unfold online. intros Hon Hm Hips. unfold _parse_server.
  rewrite bool_decide_eq_true_2 by done.
  destruct Hm as [-> | ->]; rewrite Hips; reflexivity.
Qed.

Lemma parse_server_noip self sd :
  online sd →
  ansible_host_type self = "ip" ∨ ansible_host_type self = "suffix" →
  ips sd = [] →
  _parse_server self sd = ([AddHost (servername_of self sd)], Raise IndexError).
Proof.
  unfold online. intros Hon Hm Hips. unfold _parse_server.
  rewrite bool_decide_eq_true_2 by done.
  destruct Hm as [-> | ->]; rewrite Hips; reflexivity.
Qed.

Lemma parse_server_undeclared self sd :
  online sd → ¬ declared_mode (ansible_host_type self) →
  _parse_server self sd =
    (AddHost (servername_of self sd) ::
       netcup_calls (servername_of self sd) sd ++
       [AddChild (group self) (servername_of self sd)], Ok tt).
Proof.
  unfold online, declared_mode. intros Hon Hm. unfold _parse_server.
  rewrite bool_decide_eq_true_2 by done. cbv zeta.
  rewrite !bool_decide_eq_false_2 by tauto. reflexivity.
Qed.

(** Every way an online record can be processed. *)
Lemma parse_server_online self sd :
  online sd →
  (declared_mode (ansible_host_type self) ∧
   ∃ a, _parse_server self sd =
          (full_calls (group self) (servername_of self sd) (VStr a) sd, Ok tt))
  ∨ _parse_server self sd = ([AddHost (servername_of self sd)], Raise IndexError)
  ∨ (¬ declared_mode (ansible_host_type self) ∧
     _parse_server self sd =
       (AddHost (servername_of self sd) ::
          netcup_calls (servername_of self sd) sd ++
          [AddChild (group self) (servername_of self sd)], Ok tt)).
Proof.
  intros Hon. unfold declared_mode.
  destruct (decide (ansible_host_type self = "name")) as [Hn | Hn].
  { left. split; [tauto |]. eexists. by apply parse_server_name. }
  destruct (decide (ansible_host_type self = "ip"
                    ∨ ansible_host_type self = "suffix")) as [Hi | Hi].
  - destruct (ips sd) as [| ip rest] eqn:Hips.
    + right. left. by apply parse_server_noip.
    + left. split; [tauto |]. eexists. by eapply parse_server_ip.
  - right. right. split; [tauto |].
    apply parse_server_undeclared; [done |].
    unfold declared_mode. tauto.
Qed.

(** C2: the display name is prefix + nickname + suffix when the nickname
    is non-empty and prefix + vServerName + suffix when it is empty, by
    plain concatenation, for every record and every prefix and suffix;
    it is the name of the host an online record adds. *)
Theorem servername_is_plain_concatenation (self : options) (sd : server_data) :
  (vServerNickname sd ≠ "" →
   servername_of self sd =
     (hostname_prefix self +:+ vServerNickname sd) +:+ hostname_suffix self)
  ∧ (vServerNickname sd = "" →
     servername_of self sd =
       (hostname_prefix self +:+ vServerName sd) +:+ hostname_suffix self)
  ∧ (online sd →
     hosts_added (journal (_parse_server self sd)) = [servername_of self sd]).
Proof.
  split; [| split].
  - intros Hnick. unfold servername_of.
    rewrite bool_decide_eq_true_2; [done |].
    destruct (vServerNickname sd); [done | simpl; lia].
  - intros Hnick. unfold servername_of. by rewrite Hnick.
  - intros Hon.
    destruct (parse_server_online self sd Hon) as [[_ [a ->]] | [-> | [_ ->]]];
      reflexivity.
Qed.

(** C3: a record whose status is not "online" is skipped: processing it
    issues no call on the inventory and raises nothing, so any inventory
    is left as it was. *)
Theorem offline_record_is_skipped (self : options) (sd : server_data) :
  status sd ≠ "online" →
  _parse_server self sd = ([], Ok tt)
  ∧ ∀ inv, sink_run (journal (_parse_server self sd)) inv = Some inv.
Proof.
  intros Hoff. rewrite parse_server_offline by done. by split.
Qed.

Lemma offline_record_is_skipped_witness :
  _parse_server (cfg "ip") rec_v2 = ([], Ok tt)
  ∧ ∀ inv, sink_run (journal (_parse_server (cfg "ip") rec_v2)) inv = Some inv.
Proof. apply (offline_record_is_skipped (cfg "ip") rec_v2). discriminate. Defined.

(** C4: for an online record the connection address set on the host is
    the record's primary IP in mode 'ip', the computed display name in
    mode 'name', and the record's primary IP in mode 'suffix'. *)
Theorem connection_address_by_mode (self : options) (sd : server_data) :
  online sd →
  (ansible_host_type self = "ip" →
   last_set (servername_of self sd) "ansible_host"
     (journal (_parse_server self sd)) = VStr <$> primary_ip sd)
  ∧ (ansible_host_type self = "name" →
     last_set (servername_of self sd) "ansible_host"
       (journal (_parse_server self sd)) = Some (VStr (servername_of self sd)))
  ∧ (ansible_host_type self = "suffix" →
     last_set (servername_of self sd) "ansible_host"
       (journal (_parse_server self sd)) = VStr <$> primary_ip sd).
Proof.
  intros Hon.
  assert (Hip : ansible_host_type self = "ip" ∨ ansible_host_type self = "suffix" →
    last_set (servername_of self sd) "ansible_host"
      (journal (_parse_server self sd)) = VStr <$> primary_ip sd).
  { intros Hm. unfold primary_ip. destruct (ips sd) as [| ip rest] eqn:Hips.
    - rewrite parse_server_noip by done. reflexivity.
    - rewrite (parse_server_ip self sd ip rest) by done.
      simpl. rewrite bool_decide_eq_true_2 by done. reflexivity. }
  split; [| split]; [tauto | | tauto].
  intros Hm. rewrite parse_server_name by done.
  simpl. rewrite bool_decide_eq_true_2 by done. reflexivity.
Qed.

Lemma connection_address_by_mode_witness :
  last_set "v1" "ansible_host" (journal (_parse_server (cfg "ip") rec_v1))
    = Some (VStr "1.2.3.4")
  ∧ last_set "web" "ansible_host" (journal (_parse_server (cfg "name") rec_web))
    = Some (VStr "web")
  ∧ last_set "web" "ansible_host" (journal (_parse_server (cfg "suffix") rec_web))
    = Some (VStr "9.9.9.9").
Proof.
  split; [| split].
  - exact (proj1 (connection_address_by_mode (cfg "ip") rec_v1 eq_refl) eq_refl).
  - exact (proj1 (proj2 (connection_address_by_mode (cfg "name") rec_web eq_refl))
             eq_refl).
  - exact (proj2 (proj2 (connection_address_by_mode (cfg "suffix") rec_web eq_refl))
             eq_refl).
Defined.

(** C7 (as stated, refuted): the online record without an IP, in mode
    'ip', has its host added and nothing else: the index error stops the
    processing before any variable is set or the group is joined. *)
Lemma record_without_ip_breaks_call_order :
  online rec_noip
  ∧ _parse_server (cfg "ip") rec_noip = ([AddHost "v5"], Raise IndexError)
  ∧ ¬ ∃ a, journal (_parse_server (cfg "ip") rec_noip)
           = full_calls "netcup" "v5" a rec_noip.
Proof.
  split; [reflexivity |]. split; [reflexivity |].
  intros [a Ha]. discriminate Ha.
Qed.

(** C7 (amended): for every online record that is processed to the end
    under one of the modes 'ip', 'name', 'suffix', the inventory calls
    are exactly these, in this order: add host; set the
    connection-address variable (the display name in mode 'name', the
    first IP otherwise); set netcup_server_name, netcup_server_nickname,
    netcup_reboot_recommended and netcup_status from the record; add the
    host as a child of the configured group. *)
Theorem online_record_call_order (self : options) (sd : server_data) :
  online sd → declared_mode (ansible_host_type self) →
  result (_parse_server self sd) = Ok tt →
  ∃ a,
    (ansible_host_type self = "name" → a = servername_of self sd)
    ∧ (ansible_host_type self ≠ "name" → primary_ip sd = Some a)
    ∧ _parse_server self sd =
        ([AddHost (servername_of self sd);
          SetVariable (servername_of self sd) "ansible_host" (VStr a);
          SetVariable (servername_of self sd) "netcup_server_name"
            (VStr (vServerName sd));
          SetVariable (servername_of self sd) "netcup_server_nickname"
            (VStr (vServerNickname sd));
          SetVariable (servername_of self sd) "netcup_reboot_recommended"
            (VBool (rebootRecommended sd));
          SetVariable (servername_of self sd) "netcup_status"
            (VStr (status sd));
          AddChild (group self) (servername_of self sd)], Ok tt).
Proof.
  intros Hon Hm Hok.
  destruct (decide (ansible_host_type self = "name")) as [Hn | Hn].
  - exists (servername_of self sd). split; [done |]. split; [done |].
    by rewrite parse_server_name.
  - assert (Hi : ansible_host_type self = "ip"
                 ∨ ansible_host_type self = "suffix")
      by (unfold declared_mode in Hm; tauto).
    destruct (ips sd) as [| ip rest] eqn:Hips.
    + rewrite parse_server_noip in Hok by done. discriminate Hok.
    + exists ip. split; [done |]. split; [by unfold primary_ip; rewrite Hips |].
      by rewrite (parse_server_ip self sd ip rest).
Qed.

Lemma online_record_call_order_witness :
  ∃ a,
    primary_ip rec_v1 = Some a
    ∧ _parse_server (cfg "ip") rec_v1 =
        ([AddHost "v1";
          SetVariable "v1" "ansible_host" (VStr a);
          SetVariable "v1" "netcup_server_name" (VStr "v1");
          SetVariable "v1" "netcup_server_nickname" (VStr "");
          SetVariable "v1" "netcup_reboot_recommended" (VBool false);
          SetVariable "v1" "netcup_status" (VStr "online");
          AddChild "netcup" "v1"], Ok tt).
Proof.
  destruct (online_record_call_order (cfg "ip") rec_v1)
    as (a & _ & Hip & Hj).
  - reflexivity.
  - left. reflexivity.
  - reflexivity.
  - exists a. split; [by apply Hip | exact Hj].
Defined.

(** C9: in mode 'ip' or 'suffix' the first element of the IP list of an
    online record is read without a guard: with a non-empty list the
    record is processed to the end, and with an empty list processing
    stops with an index error when the host has already been added, so
    the host stays in the inventory. *)
Theorem primary_ip_read_is_unguarded (self : options) (sd : server_data) :
  online sd →
  ansible_host_type self = "ip" ∨ ansible_host_type self = "suffix" →
  (ips sd ≠ [] → result (_parse_server self sd) = Ok tt)
  ∧ (ips sd = [] →
     _parse_server self sd =
       ([AddHost (servername_of self sd)], Raise IndexError)
     ∧ ∀ inv, ∃ inv',
         sink_run (journal (_parse_server self sd)) inv = Some inv'
         ∧ is_Some (hosts inv' !! servername_of self sd)).
Proof.
  intros Hon Hm. split.
  - destruct (ips sd) as [| ip rest] eqn:Hips; [done |]. intros _.
    by rewrite (parse_server_ip self sd ip rest).
  - intros Hips. rewrite parse_server_noip by done.
    split; [done |]. intros inv. simpl.
    destruct (hosts inv !! servername_of self sd) as [vars |] eqn:Hh.
    + exists inv. by rewrite Hh.
    + eexists. split; [done |]. simpl. rewrite lookup_insert_eq. by eexists.
Qed.

Lemma primary_ip_read_is_unguarded_witness :
  result (_parse_server (cfg "ip") rec_v1) = Ok tt
  ∧ _parse_server (cfg "suffix") rec_noip = ([AddHost "v5"], Raise IndexError).
Proof.
  split.
  - apply (primary_ip_read_is_unguarded (cfg "ip") rec_v1);
      [reflexivity | left; reflexivity | discriminate].
  - apply (primary_ip_read_is_unguarded (cfg "suffix") rec_noip);
      [reflexivity | right; reflexivity | reflexivity].
Defined.

(** * The driver *)

Lemma get_server_list_ok (ZClient : client) url user pw svc listing :
  ZClient url = Ok svc → getVServers svc user pw = Ok listing →
  _get_server_list ZClient url user pw = ([], Ok listing).
Proof.
  intros Hc Hl. unfold _get_server_list, lift, try_except, mbind, M_bind.
  simpl. rewrite Hc. simpl. rewrite Hl. reflexivity.
Qed.

Lemma get_server_info_ok (ZClient : client) url user pw name svc info :
  ZClient url = Ok svc → getVServerInformation svc user pw name "en" = Ok info →
  _get_server_info ZClient url user pw name = ([], Ok info).
Proof.
  intros Hc Hi. unfold _get_server_info, lift, try_except, mbind, M_bind.
  simpl. rewrite Hc. simpl. rewrite Hi. reflexivity.
Qed.

Lemma fetch_loop (self : options) (ZClient : client) svc detail l :
  ZClient (wsdl_url self) = Ok svc →
  (∀ x, getVServerInformation svc (customer_id self) (password self) x "en"
        = Ok (detail x)) →
  for_each l
    (λ server,
       info ← _get_server_info ZClient (wsdl_url self) (customer_id self)
                (password self) server;
       _parse_server self info)
  = for_each (detail <$> l) (_parse_server self).
Proof.
  intros Hc Hd. induction l as [| x l IH]; [done |].
  rewrite fmap_cons, !for_each_cons, IH.
  by rewrite (get_server_info_ok _ _ _ _ _ svc (detail x)), ret_bind.
Qed.

(** With a declared mode the configuration loads and [parse] goes on;
    with any other mode it stops there. *)
Lemma parse_declared (self : options) (ZClient : client) :
  declared_mode (ansible_host_type self) →
  parse self ZClient = parse_loaded self ZClient.
Proof.
  intros Hm. unfold parse, _read_config_data.
  rewrite decide_True by done. unfold mret, M_ret. by rewrite ret_bind.
Qed.

Lemma parse_undeclared (self : options) (ZClient : client) :
  ¬ declared_mode (ansible_host_type self) →
  parse self ZClient =
    ([], Raise (AnsibleOptionsError "ansible_host_type"
                  (ansible_host_type self))).
Proof.
  intros Hm. unfold parse, _read_config_data.
  by rewrite decide_False.
Qed.



(** When the listing is not empty and every detail call answers, the
    loaded [parse] is [build] over the detail records, in listing
    order. *)
Lemma parse_is_build (self : options) (ZClient : client) svc name names detail :
  ZClient (wsdl_url self) = Ok svc →
  getVServers svc (customer_id self) (password self) = Ok (Some (name :: names)) →
  (∀ x, getVServerInformation svc (customer_id self) (password self) x "en"
        = Ok (detail x)) →
  parse_loaded self ZClient = build self (detail <$> (name :: names)).
Proof.
  intros Hc Hl Hd. unfold parse_loaded, build.
  rewrite (get_server_list_ok _ _ _ _ svc (Some (name :: names))), ret_bind
    by done.
  cbn [falsy]. unfold len, mret, M_ret. rewrite ret_bind.
  rewrite bool_decide_eq_false_2 by done.
  unfold add_group. rewrite !emit_bind. unfold iter, mret, M_ret.
  rewrite ret_bind. by rewrite (fetch_loop self ZClient svc detail).
Qed.

(** C6: when the listing call succeeds with zero entries, [parse] raises
    a fatal error before any call on the inventory, for every
    configuration; with a declared mode, the only ones with which the
    listing call is reached, it is the parser error of line 265.  The
    building part itself accepts an empty list of records: it creates
    the group, adds no host and raises nothing. *)
Theorem empty_listing_rejected_by_driver
    (self : options) (ZClient : client) (svc : service) :
  ZClient (wsdl_url self) = Ok svc →
  getVServers svc (customer_id self) (password self) = Ok (Some []) →
  (declared_mode (ansible_host_type self) →
   parse self ZClient =
     ([], Raise (AnsibleParserError
                   "Did not receive a server list from Webservice.")))
  ∧ journal (parse self ZClient) = []
  ∧ (∃ e, result (parse self ZClient) = Raise e)
  ∧ build self [] = ([AddGroup (group self)], Ok tt)
  ∧ hosts_added (journal (build self [])) = [].
Proof.
  intros Hc Hl.
  assert (Hp : parse_loaded self ZClient =
            ([], Raise (AnsibleParserError
                          "Did not receive a server list from Webservice."))).
  { unfold parse_loaded.
    by rewrite (get_server_list_ok _ _ _ _ svc (Some [])), ret_bind. }
  split; [intros Hm; by rewrite parse_declared |].
  destruct (decide (declared_mode (ansible_host_type self))) as [Hm | Hm].
  - rewrite parse_declared, Hp by done. repeat split; by try eexists.
  - rewrite parse_undeclared by done. repeat split; by try eexists.
Qed.

Lemma empty_listing_rejected_by_driver_witness :
  parse (cfg "ip") (fixed_client (Some []) (λ _, rec_v1)) =
    ([], Raise (AnsibleParserError
                  "Did not receive a server list from Webservice."))
  ∧ build (cfg "ip") [] = ([AddGroup "netcup"], Ok tt)
  ∧ hosts_added (journal (build (cfg "ip") [])) = [].
Proof.
  destruct (empty_listing_rejected_by_driver (cfg "ip")
              (fixed_client (Some []) (λ _, rec_v1))
              (mk_service (λ _ _, Ok (Some []))
                 (λ _ _ name _, Ok ((λ _, rec_v1) name)))
              eq_refl eq_refl) as (Hp & _ & _ & Hb & Hh).
  split; [| by split]. apply Hp. left. reflexivity.
Defined.

(** C8: [ansible_host_suffix] has no effect: two configurations that
    differ only in that option issue the same calls and end the same
    way over the same records, so they leave the same inventory; the
    same holds for the whole driver. *)
Theorem ansible_host_suffix_is_unused
    (o1 o2 : options) (records : list server_data) :
  same_but_ansible_host_suffix o1 o2 →
  build o1 records = build o2 records
  ∧ (∀ inv, sink_run (journal (build o1 records)) inv
            = sink_run (journal (build o2 records)) inv)
  ∧ (∀ ZClient, parse o1 ZClient = parse o2 ZClient).
Proof.
  destruct o1 as [c1 p1 w1 g1 m1 s1 hp1 hs1], o2 as [c2 p2 w2 g2 m2 s2 hp2 hs2].
  intros H. unfold same_but_ansible_host_suffix in H. simpl in H.
  destruct H as (-> & -> & -> & -> & -> & -> & ->).
  assert (Hb : build (mk_options c2 p2 w2 g2 m2 s1 hp2 hs2) records
               = build (mk_options c2 p2 w2 g2 m2 s2 hp2 hs2) records)
    by reflexivity.
  split; [exact Hb |]. split; [by rewrite Hb | reflexivity].
Qed.

Lemma ansible_host_suffix_is_unused_witness :
  build (mk_options "1234" "pw" "url" "netcup" "suffix" ".lan" "" ".example.org")
    [rec_v1; rec_v2; rec_web]
  = build (mk_options "1234" "pw" "url" "netcup" "suffix" "" "" ".example.org")
      [rec_v1; rec_v2; rec_web].
Proof.
  apply (ansible_host_suffix_is_unused
           (mk_options "1234" "pw" "url" "netcup" "suffix" ".lan" "" ".example.org")
           (mk_options "1234" "pw" "url" "netcup" "suffix" "" "" ".example.org")).
  unfold same_but_ansible_host_suffix. simpl. tauto.
Defined.

(** * Replaying journals on the inventory *)

Lemma sink_run_app (a b : list call) (inv : InventoryData) :
  sink_run (a ++ b) inv = sink_run a inv ≫= sink_run b.
Proof.
  revert inv. induction a as [| c a IH]; intros inv; [done |].
  simpl. destruct (sink_call c inv) as [inv' |]; [apply IH | done].
Qed.

Lemma sink_run_setvars n kvs rest inv old :
  hosts inv !! n = Some old →
  sink_run (setvars n kvs ++ rest) inv =
    sink_run rest
      (mk_inventory (<[n := set_all kvs old]> (hosts inv)) (groups inv)).
Proof.
  revert inv old. induction kvs as [| [k v] kvs IH]; intros inv old Hn.
  - simpl. rewrite insert_id by done. by destruct inv.
  - simpl. rewrite Hn.
    rewrite (IH _ (<[k := v]> old)) by apply lookup_insert_eq.
    simpl. by rewrite insert_insert_eq.
Qed.

Lemma sink_run_record g n kvs inv members :
  groups inv !! g = Some members →
  sink_run (AddHost n :: setvars n kvs ++ [AddChild g n]) inv =
    Some (mk_inventory
            (<[n := set_all kvs (default ∅ (hosts inv !! n))]> (hosts inv))
            (<[g := {[n]} ∪ members]> (groups inv))).
Proof.
  intros Hg. cbn [sink_run sink_call].
  destruct (hosts inv !! n) as [old |] eqn:Hn.
  - rewrite (sink_run_setvars n kvs _ inv old) by done.
    simpl. by rewrite Hg, lookup_insert_eq.
  - rewrite (sink_run_setvars n kvs _ _ ∅) by apply lookup_insert_eq.
    simpl. by rewrite Hg, lookup_insert_eq, insert_insert_eq.
Qed.

Lemma set_all_union kvs (old : gmap string value) :
  set_all kvs old = set_all kvs ∅ ∪ old.
Proof.
  revert old. induction kvs as [| [k v] kvs IH]; intros old.
  - simpl. by rewrite (left_id_L ∅ (∪)).
  - simpl. rewrite (IH (<[k := v]> old)), (IH (<[k := v]> ∅)).
    rewrite insert_empty, (insert_union_singleton_l old).
    by rewrite (assoc_L (∪)).
Qed.

Lemma dom_set_all kvs (old : gmap string value) :
  dom (set_all kvs old) = list_to_set kvs.*1 ∪ dom old.
Proof.
  revert old. induction kvs as [| [k v] kvs IH]; intros old.
  - simpl. set_solver.
  - simpl. rewrite IH, dom_insert_L. set_solver.
Qed.

Lemma union_absorb (a old : gmap string value) :
  dom old ⊆ dom a → a ∪ old = a.
Proof.
  intros Hsub. apply map_eq. intros i. rewrite lookup_union.
  destruct (a !! i) as [x |] eqn:Ha; destruct (old !! i) as [y |] eqn:Ho;
    simpl; try done.
  assert (i ∈ dom a) as Hi by (apply Hsub, elem_of_dom; by eexists).
  apply elem_of_dom in Hi as [z Hz]. congruence.
Qed.

Lemma vars_of_calls_record g n kvs :
  vars_of_calls (AddHost n :: setvars n kvs ++ [AddChild g n]) = set_all kvs ∅.
Proof.
  unfold vars_of_calls, set_all. simpl. generalize (∅ : gmap string value).
  induction kvs as [| [k v] kvs IH]; intros acc; [done |]. simpl. apply IH.
Qed.

(** A record processed to the end issues [add_host], then
    [set_variable] for the written keys, then [add_child]. *)
Lemma parse_server_ok_shape self sd :
  online sd → result (_parse_server self sd) = Ok tt →
  ∃ kvs,
    journal (_parse_server self sd) =
      AddHost (servername_of self sd) ::
        setvars (servername_of self sd) kvs ++
        [AddChild (group self) (servername_of self sd)]
    ∧ kvs.*1 = written_keys self.
Proof.
  intros Hon Hok. unfold written_keys.
  destruct (parse_server_online self sd Hon)
    as [[Hm [a Hp]] | [Hp | [Hm Hp]]]; rewrite Hp in Hok |- *.
  - exists (("ansible_host", VStr a) ::
            [("netcup_server_name", VStr (vServerName sd));
             ("netcup_server_nickname", VStr (vServerNickname sd));
             ("netcup_reboot_recommended", VBool (rebootRecommended sd));
             ("netcup_status", VStr (status sd))]).
    by rewrite decide_True.
  - discriminate Hok.
  - exists [("netcup_server_name", VStr (vServerName sd));
            ("netcup_server_nickname", VStr (vServerNickname sd));
            ("netcup_reboot_recommended", VBool (rebootRecommended sd));
            ("netcup_status", VStr (status sd))].
    by rewrite decide_False.
Qed.

Lemma host_vars_dom self sd :
  online sd → result (_parse_server self sd) = Ok tt →
  dom (host_vars self sd) = list_to_set (written_keys self).
Proof.
  intros Hon Hok.
  destruct (parse_server_ok_shape self sd Hon Hok) as (kvs & Hj & Hk).
  unfold host_vars. rewrite Hj, vars_of_calls_record, dom_set_all, Hk.
  set_solver.
Qed.

(** The effect on the inventory of a record processed to the end. *)
Lemma record_commit self sd inv members :
  online sd → result (_parse_server self sd) = Ok tt →
  groups inv !! group self = Some members → tidy self inv →
  sink_run (journal (_parse_server self sd)) inv =
    Some (mk_inventory
            (<[servername_of self sd := host_vars self sd]> (hosts inv))
            (<[group self := {[servername_of self sd]} ∪ members]> (groups inv))).
Proof.
  intros Hon Hok Hg Htidy.
  pose proof (host_vars_dom self sd Hon Hok) as Hdom. revert Hdom.
  destruct (parse_server_ok_shape self sd Hon Hok) as (kvs & Hj & Hk).
  unfold host_vars. rewrite Hj, vars_of_calls_record. intros Hdom.
  rewrite (sink_run_record _ _ _ _ members) by done.
  do 3 f_equal. rewrite set_all_union. apply union_absorb.
  rewrite Hdom.
  destruct (hosts inv !! servername_of self sd) as [old |] eqn:Hold; simpl.
  - by apply (Htidy _ _ Hold).
  - set_solver.
Qed.

(** The loop of [build], replayed from an inventory that has the group. *)
Lemma loop_commit self rs : ∀ inv members,
  result (for_each rs (_parse_server self)) = Ok tt →
  groups inv !! group self = Some members → tidy self inv →
  ∃ inv',
    sink_run (journal (for_each rs (_parse_server self))) inv = Some inv'
    ∧ dom (hosts inv') = dom (hosts inv) ∪ list_to_set (online_names self rs)
    ∧ groups inv' =
        <[group self := list_to_set (online_names self rs) ∪ members]>
          (groups inv)
    ∧ (∀ h, h ∉ online_names self rs → hosts inv' !! h = hosts inv !! h)
    ∧ (∀ pre sd post, rs = pre ++ sd :: post → online sd →
         servername_of self sd ∉ online_names self post →
         hosts inv' !! servername_of self sd = Some (host_vars self sd)).
Proof.
  unfold online_names.
  induction rs as [| x l IH]; intros inv members Hok Hg Htidy.
  - exists inv. split; [done |].
    rewrite filter_nil, fmap_nil, list_to_set_nil, !(left_id_L ∅ (∪)).
    split; [by rewrite (right_id_L ∅ (∪)) |].
    split; [by rewrite insert_id |]. split; [done |].
    intros pre sd post Hnil. by destruct pre.
  - rewrite for_each_cons in Hok |- *.
    destruct (bind_result_ok _ _ _ Hok) as ([] & Hx & Hl).
    rewrite (bind_ok _ _ tt) by done. cbn [journal result fst snd].
    rewrite sink_run_app.
    destruct (decide (online x)) as [Hon | Hoff].
    + rewrite (record_commit self x inv members) by done.
      set (inv1 := mk_inventory _ _).
      assert (Hg1 : groups inv1 !! group self
                    = Some ({[servername_of self x]} ∪ members))
        by apply lookup_insert_eq.
      assert (Htidy1 : tidy self inv1).
      { intros h vars. unfold inv1. simpl.
        destruct (decide (servername_of self x = h)) as [<- | Hne].
        - rewrite lookup_insert_eq. intros [= <-].
          by rewrite host_vars_dom.
        - rewrite lookup_insert_ne by done. apply Htidy. }
      destruct (IH inv1 _ Hl Hg1 Htidy1) as (inv' & Hrun & Hdom & Hgr & Hkeep & Hlast).
      exists inv'. split; [exact Hrun |].
      rewrite filter_cons_True, fmap_cons by done.
      split; [| split; [| split]].
      * rewrite Hdom. unfold inv1. simpl. rewrite dom_insert_L. set_solver.
      * rewrite Hgr. unfold inv1. simpl. rewrite insert_insert_eq.
        f_equal. set_solver.
      * intros h Hh. apply not_elem_of_cons in Hh as [Hne Hh].
        rewrite (Hkeep h Hh). unfold inv1. simpl.
        by rewrite lookup_insert_ne.
      * intros pre sd post Heq Hsd Hpost. destruct pre as [| y pre].
        -- simpl in Heq. injection Heq as -> ->.
           rewrite (Hkeep _ Hpost). unfold inv1. simpl.
           apply lookup_insert_eq.
        -- simpl in Heq. injection Heq as -> ->. by eapply Hlast.
    + rewrite parse_server_offline by done.
      destruct (IH inv members Hl Hg Htidy) as (inv' & Hrun & Hdom & Hgr & Hkeep & Hlast).
      exists inv'. split; [exact Hrun |].
      rewrite filter_cons_False by done.
      split; [done |]. split; [done |]. split; [done |].
      intros pre sd post Heq Hsd Hpost. destruct pre as [| y pre].
      * simpl in Heq. injection Heq as -> ->. done.
      * simpl in Heq. injection Heq as -> ->. by eapply Hlast.
Qed.

(** The inventory left by a [build] that returns normally. *)
Lemma build_commit self rs :
  result (build self rs) = Ok tt →
  ∃ inv,
    sink_run (journal (build self rs)) empty_inventory = Some inv
    ∧ dom (hosts inv) = list_to_set (online_names self rs)
    ∧ groups inv = {[ group self := list_to_set (online_names self rs) ]}
    ∧ (∀ pre sd post, rs = pre ++ sd :: post → online sd →
         servername_of self sd ∉ online_names self post →
         hosts inv !! servername_of self sd = Some (host_vars self sd)).
Proof.
  unfold build, add_group. rewrite emit_bind. cbn [journal result fst snd].
  intros Hok.
  destruct (loop_commit self rs
              (mk_inventory ∅ (<[group self := ∅]> ∅)) ∅ Hok)
    as (inv & Hrun & Hdom & Hgr & _ & Hlast).
  { apply lookup_insert_eq. }
  { intros h vars. simpl. by rewrite lookup_empty. }
  exists inv. split; [exact Hrun |]. split; [| split; [| exact Hlast]].
  - rewrite Hdom. simpl. rewrite dom_empty_L. set_solver.
  - rewrite Hgr. simpl. rewrite insert_insert_eq, insert_empty.
    f_equal. set_solver.
Qed.

Lemma for_each_ok_each {A} (l : list A) (body : A → M unit) :
  result (for_each l body) = Ok tt → ∀ x, x ∈ l → result (body x) = Ok tt.
Proof.
  induction l as [| y l IH]; intros Hok x Hx; [by apply elem_of_nil in Hx |].
  rewrite for_each_cons in Hok.
  destruct (bind_result_ok _ _ _ Hok) as ([] & Hy & Hl).
  apply elem_of_cons in Hx as [-> | Hx]; [done | by apply IH].
Qed.

Lemma build_ok_each self rs :
  result (build self rs) = Ok tt →
  ∀ r, r ∈ rs → result (_parse_server self r) = Ok tt.
Proof.
  unfold build, add_group. rewrite emit_bind. cbn [result snd].
  apply for_each_ok_each.
Qed.

Lemma size_list_to_set_le (l : list string) :
  (size (list_to_set l : gset string) ≤ length l)%nat.
Proof.
  induction l as [| x l IH]; [by rewrite list_to_set_nil, size_empty |].
  rewrite list_to_set_cons, size_union_alt, size_singleton. simpl.
  assert ((size (list_to_set l ∖ {[x]} : gset string)
           ≤ size (list_to_set l : gset string))%nat)
    by (apply subseteq_size; set_solver).
  lia.
Qed.

(** The variables of a record processed to the end. *)
Lemma host_vars_lookup self sd :
  online sd → result (_parse_server self sd) = Ok tt →
  host_vars self sd !! "netcup_server_name" = Some (VStr (vServerName sd))
  ∧ host_vars self sd !! "netcup_server_nickname"
    = Some (VStr (vServerNickname sd))
  ∧ host_vars self sd !! "netcup_reboot_recommended"
    = Some (VBool (rebootRecommended sd))
  ∧ host_vars self sd !! "netcup_status" = Some (VStr (status sd))
  ∧ host_vars self sd !! "ansible_host"
    = last_set (servername_of self sd) "ansible_host"
        (journal (_parse_server self sd)).
Proof.
  intros Hon Hok. unfold host_vars.
  destruct (parse_server_online self sd Hon)
    as [[Hm [a Hp]] | [Hp | [Hm Hp]]]; rewrite Hp in Hok |- *.
  - repeat split; try reflexivity.
    simpl. rewrite bool_decide_eq_true_2 by done. reflexivity.
  - discriminate Hok.
  - repeat split; reflexivity.
Qed.

(** * Display names of a list of records *)

Lemma online_names_app self l k :
  online_names self (l ++ k) = online_names self l ++ online_names self k.
Proof. unfold online_names. by rewrite filter_app, fmap_app. Qed.

Lemma online_names_cons_online self r l :
  online r → online_names self (r :: l) = servername_of self r :: online_names self l.
Proof. intros Hon. unfold online_names. by rewrite filter_cons_True. Qed.

Lemma online_names_elem self rs h :
  h ∈ online_names self rs ↔ ∃ r, r ∈ rs ∧ online r ∧ servername_of self r = h.
Proof.
  unfold online_names. rewrite list_elem_of_fmap. split.
  - intros (r & -> & Hr). apply list_elem_of_filter in Hr as [Hon Hr].
    by exists r.
  - intros (r & Hr & Hon & <-). exists r. split; [done |].
    by apply list_elem_of_filter.
Qed.

(** Every display name of an online record has a last record that
    computes it. *)
Lemma names_last_occurrence self rs h :
  h ∈ online_names self rs →
  ∃ pre sd post, rs = pre ++ sd :: post ∧ online sd
    ∧ servername_of self sd = h ∧ h ∉ online_names self post.
Proof.
  induction rs as [| x rs IH]; intros Hh.
  - unfold online_names in Hh. by apply elem_of_nil in Hh.
  - destruct (decide (h ∈ online_names self rs)) as [Hin | Hout].
    + destruct (IH Hin) as (pre & sd & post & -> & Hon & Hn & Hlast).
      by exists (x :: pre), sd, post.
    + apply online_names_elem in Hh as (r & Hr & Hon & Hn).
      apply elem_of_cons in Hr as [-> | Hr].
      * by exists [], x, rs.
      * destruct Hout. apply online_names_elem. by exists r.
Qed.

(** * The inventory after a build *)

(** C5 (as stated, refuted): two online records with the same nickname
    are built without error into an inventory with a single host entry. *)
Lemma duplicate_names_give_one_entry :
  result (build (cfg "ip") [rec_web; rec_web']) = Ok tt
  ∧ length (filter online [rec_web; rec_web']) = 2
  ∧ ∃ inv,
      sink_run (journal (build (cfg "ip") [rec_web; rec_web'])) empty_inventory
        = Some inv
      ∧ size (hosts inv) = 1.
Proof.
  split; [reflexivity |]. split; [reflexivity |].
  destruct (build_commit (cfg "ip") [rec_web; rec_web'] eq_refl)
    as (inv & Hrun & Hdom & _).
  exists inv. split; [exact Hrun |].
  rewrite <- size_dom, Hdom. reflexivity.
Qed.

(** C5 (amended): after a build that returns normally, the host entries
    of the inventory are exactly the display names of the online
    records, one entry per distinct name (so one per online record when
    these names are pairwise distinct); the configured group is the only
    group and holds exactly these entries; it is created by the first
    call, before any host, and exists also when no host was added. *)
Theorem build_postcondition (self : options) (rs : list server_data) :
  result (build self rs) = Ok tt →
  ∃ inv,
    sink_run (journal (build self rs)) empty_inventory = Some inv
    ∧ dom (hosts inv) = list_to_set (online_names self rs)
    ∧ groups inv = {[ group self := dom (hosts inv) ]}
    ∧ (NoDup (online_names self rs) →
       size (hosts inv) = length (filter online rs))
    ∧ journal (build self rs) !! 0 = Some (AddGroup (group self)).
Proof.
  intros Hok.
  destruct (build_commit self rs Hok) as (inv & Hrun & Hdom & Hgr & _).
  exists inv. split; [exact Hrun |]. split; [exact Hdom |].
  split; [by rewrite Hdom |]. split; [| reflexivity].
  intros Hnd. rewrite <- size_dom, Hdom, size_list_to_set by done.
  unfold online_names. by rewrite length_fmap.
Qed.

Lemma build_postcondition_witness :
  ∃ inv,
    sink_run (journal (build (cfg "ip") [rec_v1; rec_v2])) empty_inventory
      = Some inv
    ∧ dom (hosts inv) = list_to_set (online_names (cfg "ip") [rec_v1; rec_v2])
    ∧ groups inv = {[ "netcup" := dom (hosts inv) ]}
    ∧ (NoDup (online_names (cfg "ip") [rec_v1; rec_v2]) →
       size (hosts inv) = length (filter online [rec_v1; rec_v2]))
    ∧ journal (build (cfg "ip") [rec_v1; rec_v2]) !! 0 = Some (AddGroup "netcup").
Proof.
  apply (build_postcondition (cfg "ip") [rec_v1; rec_v2]). reflexivity.
Defined.

(** C10 (as stated, refuted): two online records with the same display
    name, the second without an IP, in mode 'ip': the build stops with
    the index error and the host entry keeps the variables of the first
    record. *)
Lemma failed_duplicate_keeps_first_values :
  online rec_web ∧ online rec_web_noip
  ∧ servername_of (cfg "ip") rec_web = servername_of (cfg "ip") rec_web_noip
  ∧ result (build (cfg "ip") [rec_web; rec_web_noip]) = Raise IndexError
  ∧ ∃ inv vars,
      sink_run (journal (build (cfg "ip") [rec_web; rec_web_noip]))
        empty_inventory = Some inv
      ∧ hosts inv !! "web" = Some vars
      ∧ vars !! "netcup_server_name" = Some (VStr "v3")
      ∧ vars !! "ansible_host" = Some (VStr "9.9.9.9").
Proof.
  do 4 (split; [reflexivity |]).
  eexists _, _. split; [vm_compute; reflexivity |].
  split; [vm_compute; reflexivity |]. split; vm_compute; reflexivity.
Qed.

(** C10 (amended): display names need not be unique.  When two online
    records compute the same display name and the build returns
    normally, the later records write their variables onto the same host
    entry, replacing those of the earlier ones: the entry ends with the
    variables of an online record of that name that is not the first
    one (the last of them), and the inventory has fewer host entries
    than there are online records. *)
Theorem later_duplicate_overwrites
    (self : options) (rs1 rs2 rs3 : list server_data) (ra rb : server_data) :
  online ra → online rb →
  servername_of self ra = servername_of self rb →
  result (build self (rs1 ++ ra :: rs2 ++ rb :: rs3)) = Ok tt →
  ∃ inv vars rl,
    sink_run (journal (build self (rs1 ++ ra :: rs2 ++ rb :: rs3)))
      empty_inventory = Some inv
    ∧ hosts inv !! servername_of self ra = Some vars
    ∧ rl ∈ rb :: rs3 ∧ online rl
    ∧ servername_of self rl = servername_of self ra
    ∧ vars = host_vars self rl
    ∧ vars !! "netcup_server_name" = Some (VStr (vServerName rl))
    ∧ vars !! "netcup_server_nickname" = Some (VStr (vServerNickname rl))
    ∧ vars !! "netcup_reboot_recommended" = Some (VBool (rebootRecommended rl))
    ∧ vars !! "netcup_status" = Some (VStr (status rl))
    ∧ vars !! "ansible_host"
      = last_set (servername_of self rl) "ansible_host"
          (journal (_parse_server self rl))
    ∧ size (hosts inv)
      < length (filter online (rs1 ++ ra :: rs2 ++ rb :: rs3)).
Proof.
  intros Ha Hb Hsame Hok.
  destruct (build_commit self _ Hok) as (inv & Hrun & Hdom & _ & Hval).
  assert (Hin : servername_of self ra ∈ online_names self (rb :: rs3)).
  { apply online_names_elem. exists rb. split; [by left | done]. }
  destruct (names_last_occurrence self _ _ Hin)
    as (pre & rl & post & Heq & Hl & Hn & Hlast).
  assert (Hrl : rl ∈ rb :: rs3) by (rewrite Heq; set_solver).
  assert (Hrlok : result (_parse_server self rl) = Ok tt).
  { apply (build_ok_each self _ Hok). set_solver. }
  destruct (host_vars_lookup self rl Hl Hrlok) as (H1 & H2 & H3 & H4 & H5).
  exists inv, (host_vars self rl), rl.
  split; [exact Hrun |]. split.
  { rewrite <- Hn.
    apply (Hval (rs1 ++ ra :: rs2 ++ pre) rl post); [| done | by rewrite Hn].
    rewrite Heq. by rewrite <- !app_assoc, <- app_comm_cons, <- app_assoc. }
  do 9 (split; [done |]).
  rewrite <- size_dom, Hdom. unfold online_names.
  rewrite !filter_app, !filter_cons_True, !filter_app, !filter_cons_True by done.
  set (n1 := filter online rs1). set (n2 := filter online rs2).
  set (n3 := filter online rs3).
  assert (Hset :
    (list_to_set (servername_of self <$> n1 ++ ra :: n2 ++ rb :: n3)
       : gset string)
    = list_to_set (servername_of self <$> n1 ++ ra :: n2 ++ n3)).
  { rewrite !fmap_app, !fmap_cons, !fmap_app, !fmap_cons, Hsame. set_solver. }
  rewrite Hset.
  pose proof (size_list_to_set_le (servername_of self <$> n1 ++ ra :: n2 ++ n3))
    as Hle.
  rewrite length_fmap in Hle.
  rewrite !length_app in Hle |- *. simpl in Hle |- *.
  rewrite !length_app in Hle |- *. simpl. lia.
Qed.

Lemma later_duplicate_overwrites_witness :
  ∃ inv vars,
    sink_run (journal (build (cfg "ip") [rec_web; rec_v2; rec_web'; rec_v1]))
      empty_inventory = Some inv
    ∧ hosts inv !! "web" = Some vars
    ∧ vars !! "netcup_status" = Some (VStr "online")
    ∧ size (hosts inv) < 3.
Proof.
  destruct (later_duplicate_overwrites (cfg "ip") [] [rec_v2] [rec_v1]
              rec_web rec_web' eq_refl eq_refl eq_refl eq_refl)
    as (inv & vars & rl & Hrun & Hh & _ & Hon & _ & _ & _ & _ & _ & Hs & _ & Hsz).
  exists inv, vars. split; [exact Hrun |]. split; [exact Hh |].
  split; [| exact Hsz]. rewrite Hs. by rewrite Hon.
Defined.

(** * Loops and failures *)

Lemma bind_raise {A B} (m : M A) (k : A → M B) e :
  result m = Raise e → m ≫= k = (journal m, Raise e).
Proof. unfold result, journal, mbind, M_bind. by intros ->. Qed.

Lemma bind_cases {A B} (m : M A) (k : A → M B) :
  (∃ a, result m = Ok a ∧ m ≫= k = (journal m ++ journal (k a), result (k a)))
  ∨ (∃ e, result m = Raise e ∧ m ≫= k = (journal m, Raise e)).
Proof.
  unfold result, journal, mbind, M_bind.
  destruct (m.2) as [a | e]; [left; by exists a | right; by exists e].
Qed.

Lemma for_each_ext {A} (l : list A) (f h : A → M unit) :
  (∀ x, x ∈ l → f x = h x) → for_each l f = for_each l h.
Proof.
  induction l as [| x l IH]; intros Hfh; [done |].
  rewrite !for_each_cons, Hfh by left.
  rewrite IH; [done |]. intros y Hy. apply Hfh. by right.
Qed.

Lemma for_each_all_ok {A} (l : list A) (body : A → M unit) :
  (∀ x, x ∈ l → result (body x) = Ok tt) →
  result (for_each l body) = Ok tt.
Proof.
  induction l as [| x l IH]; intros Hall; [done |].
  rewrite for_each_cons, (bind_ok _ _ tt) by (apply Hall; left).
  cbn [result snd]. apply IH. intros y Hy. apply Hall. by right.
Qed.

(** A loop whose body raises stops there: the calls of the iterations
    before and of the failing one are issued, nothing after. *)
Lemma for_each_stop {A} (pre post : list A) (x : A) (body : A → M unit) e :
  result (for_each pre body) = Ok tt → result (body x) = Raise e →
  for_each (pre ++ x :: post) body =
    (journal (for_each pre body) ++ journal (body x), Raise e).
Proof.
  intros Hpre Hx. induction pre as [| y pre IH].
  - simpl. by rewrite (bind_raise _ _ e).
  - rewrite for_each_cons in Hpre.
    destruct (bind_result_ok _ _ _ Hpre) as ([] & Hy & Hrest).
    rewrite <- app_comm_cons, !for_each_cons, !(bind_ok _ _ tt) by done.
    rewrite (IH Hrest). cbn [journal result fst snd].
    by rewrite app_assoc.
Qed.

(** * When processing a record fails *)

Lemma parse_server_result self r :
  (lacks_ip self r ∧ result (_parse_server self r) = Raise IndexError)
  ∨ (¬ lacks_ip self r ∧ result (_parse_server self r) = Ok tt).
Proof.
  unfold lacks_ip.
  destruct (decide (online r)) as [Hon | Hoff].
  - destruct (decide (ansible_host_type self = "ip"
                      ∨ ansible_host_type self = "suffix")) as [Hm | Hm].
    + destruct (ips r) as [| ip rest] eqn:Hips.
      * left. split; [done |]. by rewrite parse_server_noip.
      * right. split; [by intros (_ & _ & ?) |].
        by rewrite (parse_server_ip self r ip rest).
    + right. split; [tauto |].
      destruct (parse_server_online self r Hon)
        as [[_ [a ->]] | [Hp | [_ ->]]]; [done | | done].
      destruct (decide (ansible_host_type self = "name")) as [Hn | Hn].
      * by rewrite parse_server_name.
      * rewrite parse_server_undeclared; [done .. |].
        unfold declared_mode. tauto.
  - right. split; [tauto |]. by rewrite parse_server_offline.
Qed.

Lemma build_unfold self rs :
  build self rs =
    (AddGroup (group self) :: journal (for_each rs (_parse_server self)),
     result (for_each rs (_parse_server self))).
Proof. unfold build, add_group. by rewrite emit_bind. Qed.

(** X2: a build stops at the first record that lacks an IP: the records
    before it are processed as if the list ended there, the host of the
    failing record is added, nothing is done for the records after it,
    and the index error is raised. *)
Theorem build_stops_at_first_failure
    (self : options) (pre post : list server_data) (r : server_data) :
  (∀ x, x ∈ pre → ¬ lacks_ip self x) → lacks_ip self r →
  build self (pre ++ r :: post) =
    (journal (build self pre) ++ [AddHost (servername_of self r)],
     Raise IndexError).
Proof.
  intros Hpre Hr. rewrite !build_unfold. cbn [journal fst].
  assert (Hok : result (for_each pre (_parse_server self)) = Ok tt).
  { apply for_each_all_ok. intros x Hx.
    destruct (parse_server_result self x) as [[H _] | [_ H]]; [| done].
    by destruct (Hpre x Hx). }
  destruct Hr as (Hon & Hm & Hips).
  pose proof (parse_server_noip self r Hon Hm Hips) as Hp.
  rewrite (for_each_stop pre post r _ IndexError Hok) by by rewrite Hp.
  by rewrite Hp.
Qed.

Lemma build_stops_at_first_failure_witness :
  build (cfg "ip") ([rec_v1; rec_v2] ++ rec_noip :: [rec_web]) =
    (journal (build (cfg "ip") [rec_v1; rec_v2]) ++ [AddHost "v5"],
     Raise IndexError).
Proof.
  apply (build_stops_at_first_failure (cfg "ip") [rec_v1; rec_v2] [rec_web]
           rec_noip).
  - intros x Hx (_ & _ & Hips).
    apply elem_of_cons in Hx as [-> | Hx]; [discriminate Hips |].
    apply list_elem_of_singleton in Hx as ->. discriminate Hips.
  - repeat split. by left.
Defined.

(** X3: records that are not online do not matter: a build over a list
    issues the same calls and ends the same way as a build over its
    online records alone. *)
Theorem build_ignores_offline (self : options) (rs : list server_data) :
  build self rs = build self (filter online rs).
Proof.
  rewrite !build_unfold.
  assert (H : for_each rs (_parse_server self)
              = for_each (filter online rs) (_parse_server self));
    [| by rewrite H].
  induction rs as [| x rs IH]; [done |].
  rewrite for_each_cons.
  destruct (decide (online x)) as [Hon | Hoff].
  - by rewrite filter_cons_True, for_each_cons, IH.
  - rewrite filter_cons_False, parse_server_offline, ret_bind by done.
    exact IH.
Qed.

(** * Failures of the web service *)

Lemma get_server_info_raise (ZClient : client) url user pw name svc e :
  ZClient url = Ok svc → getVServerInformation svc user pw name "en" = Raise e →
  _get_server_info ZClient url user pw name =
    ([], Raise (AnsibleParserError "Unable to get server information: {err}")).
Proof.
  intros Hc Hi. unfold _get_server_info, lift, try_except, mbind, M_bind.
  simpl. rewrite Hc. simpl. rewrite Hi. reflexivity.
Qed.

Lemma fetch_and_parse_ok self (ZClient : client) svc name info :
  ZClient (wsdl_url self) = Ok svc →
  getVServerInformation svc (customer_id self) (password self) name "en"
    = Ok info →
  fetch_and_parse self ZClient name = _parse_server self info.
Proof.
  intros Hc Hi. unfold fetch_and_parse.
  by rewrite (get_server_info_ok _ _ _ _ _ svc info), ret_bind.
Qed.

Lemma fetch_and_parse_raise self (ZClient : client) svc name e :
  ZClient (wsdl_url self) = Ok svc →
  getVServerInformation svc (customer_id self) (password self) name "en"
    = Raise e →
  fetch_and_parse self ZClient name =
    ([], Raise (AnsibleParserError "Unable to get server information: {err}")).
Proof.
  intros Hc Hi. unfold fetch_and_parse.
  by rewrite (get_server_info_raise _ _ _ _ _ svc e).
Qed.

(** The loaded [parse] once the listing has answered with at least one
    name. *)
Lemma parse_listed (self : options) (ZClient : client) svc names :
  ZClient (wsdl_url self) = Ok svc →
  getVServers svc (customer_id self) (password self) = Ok (Some names) →
  names ≠ [] →
  parse_loaded self ZClient =
    (AddGroup (group self) ::
       journal (for_each names (fetch_and_parse self ZClient)),
     result (for_each names (fetch_and_parse self ZClient))).
Proof.
  intros Hc Hl Hne. destruct names as [| name names]; [done |].
  unfold parse_loaded.
  rewrite (get_server_list_ok _ _ _ _ svc (Some (name :: names))), ret_bind
    by done.
  cbn [falsy]. unfold len, mret, M_ret. rewrite ret_bind.
  rewrite bool_decide_eq_false_2 by done.
  unfold add_group. rewrite !emit_bind. unfold iter, mret, M_ret.
  by rewrite ret_bind.
Qed.

Lemma fetch_loop_listed self (ZClient : client) svc detail names :
  ZClient (wsdl_url self) = Ok svc →
  (∀ x, x ∈ names →
     getVServerInformation svc (customer_id self) (password self) x "en"
       = Ok (detail x)) →
  for_each names (fetch_and_parse self ZClient)
  = for_each (detail <$> names) (_parse_server self).
Proof.
  intros Hc Hd. induction names as [| x l IH]; [done |].
  rewrite fmap_cons, !for_each_cons.
  rewrite (fetch_and_parse_ok self ZClient svc x (detail x))
    by (try apply Hd; by try left).
  rewrite IH; [done |]. intros y Hy. apply Hd. by right.
Qed.

(** X4: when the configuration is loaded, the client is built and the
    listing names at least one server, and the detail call answers for
    every listed server, [parse] issues the calls of a build over the
    detail records, in listing order, and ends as that build does. *)
Theorem parse_builds_listed_servers
    (self : options) (ZClient : client) (svc : service)
    (names : list string) (detail : string → server_data) :
  declared_mode (ansible_host_type self) →
  ZClient (wsdl_url self) = Ok svc →
  getVServers svc (customer_id self) (password self) = Ok (Some names) →
  names ≠ [] →
  (∀ x, x ∈ names →
     getVServerInformation svc (customer_id self) (password self) x "en"
       = Ok (detail x)) →
  parse self ZClient = build self (detail <$> names).
Proof.
  intros Hm Hc Hl Hne Hd. rewrite parse_declared by done.
  rewrite (parse_listed self ZClient svc names), build_unfold by done.
  by rewrite (fetch_loop_listed self ZClient svc detail).
Qed.

Lemma parse_builds_listed_servers_witness :
  parse (cfg "name") (fixed_client (Some ["v1"; "v2"; "v3"]) detail_of)
  = build (cfg "name") [rec_v1; rec_v2; rec_web].
Proof.
  apply (parse_builds_listed_servers (cfg "name")
           (fixed_client (Some ["v1"; "v2"; "v3"]) detail_of)
           (mk_service (λ _ _, Ok (Some ["v1"; "v2"; "v3"]))
              (λ _ _ name _, Ok (detail_of name)))
           ["v1"; "v2"; "v3"] detail_of); try done.
  right. by left.
Defined.

(** X5: when the configuration is loaded and the listing cannot be
    had, [parse] fails before any call on the inventory.  A failure to
    build the client is raised as it is; a failure of the listing call
    is replaced by a parser error whose message is the fixed text of the
    source, whatever the cause; a listing that is [None] is refused like
    an empty one. *)
Theorem parse_without_listing (self : options) (ZClient : client) :
  declared_mode (ansible_host_type self) →
  (∀ e, ZClient (wsdl_url self) = Raise e → parse self ZClient = ([], Raise e))
  ∧ (∀ svc e, ZClient (wsdl_url self) = Ok svc →
       getVServers svc (customer_id self) (password self) = Raise e →
       parse self ZClient =
         ([], Raise (AnsibleParserError "Unable to get server list: {err}")))
  ∧ (∀ svc, ZClient (wsdl_url self) = Ok svc →
       getVServers svc (customer_id self) (password self) = Ok None →
       parse self ZClient =
         ([], Raise (AnsibleParserError
                       "Did not receive a server list from Webservice."))).
Proof.
  intros Hm. rewrite parse_declared by done. split; [| split].
  - intros e Hc. unfold parse_loaded, _get_server_list, lift, mbind, M_bind.
    simpl. by rewrite Hc.
  - intros svc e Hc Hl.
    unfold parse_loaded, _get_server_list, lift, try_except, mbind, M_bind.
    simpl. rewrite Hc. simpl. by rewrite Hl.
  - intros svc Hc Hl. unfold parse_loaded.
    by rewrite (get_server_list_ok _ _ _ _ svc None), ret_bind.
Qed.

Lemma parse_without_listing_witness :
  parse (cfg "name") (λ _, Raise (PyException "no route to host"))
    = ([], Raise (PyException "no route to host"))
  ∧ parse (cfg "name")
      (λ _, Ok (mk_service (λ _ _, Raise (PyException "access denied"))
                  (λ _ _ name _, Ok (detail_of name))))
    = ([], Raise (AnsibleParserError "Unable to get server list: {err}"))
  ∧ parse (cfg "name") (fixed_client None detail_of)
    = ([], Raise (AnsibleParserError
                    "Did not receive a server list from Webservice.")).
Proof.
  assert (Hm : declared_mode (ansible_host_type (cfg "name")))
    by (right; by left).
  split; [| split].
  - by apply (proj1 (parse_without_listing (cfg "name") _ Hm)
                (PyException "no route to host")).
  - by apply (proj1 (proj2 (parse_without_listing (cfg "name") _ Hm))
                (mk_service (λ _ _, Raise (PyException "access denied"))
                   (λ _ _ name _, Ok (detail_of name)))
                (PyException "access denied")).
  - by apply (proj2 (proj2 (parse_without_listing (cfg "name") _ Hm))
                (mk_service (λ _ _, Ok None)
                   (λ _ _ name _, Ok (detail_of name)))).
Defined.

(** X6: once the configuration is loaded, a detail call that fails
    stops the run with a parser error of fixed text.  The inventory keeps what was built for the servers
    listed before the failing one; the servers listed after it are
    neither fetched nor added. *)
Theorem parse_stops_at_failed_detail
    (self : options) (ZClient : client) (svc : service)
    (pre post : list string) (bad : string) (e : exn)
    (detail : string → server_data) :
  declared_mode (ansible_host_type self) →
  ZClient (wsdl_url self) = Ok svc →
  getVServers svc (customer_id self) (password self)
    = Ok (Some (pre ++ bad :: post)) →
  (∀ x, x ∈ pre →
     getVServerInformation svc (customer_id self) (password self) x "en"
       = Ok (detail x)) →
  (∀ x, x ∈ pre → ¬ lacks_ip self (detail x)) →
  getVServerInformation svc (customer_id self) (password self) bad "en"
    = Raise e →
  parse self ZClient =
    (journal (build self (detail <$> pre)),
     Raise (AnsibleParserError "Unable to get server information: {err}")).
Proof.
  intros Hm Hc Hl Hd Hips Hbad. rewrite parse_declared by done.
  rewrite (parse_listed self ZClient svc (pre ++ bad :: post)) by
    (try done; by destruct pre).
  pose proof (fetch_loop_listed self ZClient svc detail pre Hc Hd) as Hloop.
  assert (Hok : result (for_each pre (fetch_and_parse self ZClient)) = Ok tt).
  { rewrite Hloop. apply for_each_all_ok. intros r Hr.
    apply list_elem_of_fmap in Hr as (x & -> & Hx).
    destruct (parse_server_result self (detail x)) as [[H _] | [_ H]]; [| done].
    by destruct (Hips x Hx). }
  pose proof (fetch_and_parse_raise self ZClient svc bad e Hc Hbad) as Hb.
  rewrite (for_each_stop pre post bad _ _ Hok) by by rewrite Hb.
  rewrite Hb, Hloop, build_unfold. cbn [journal result fst snd].
  by rewrite (right_id_L [] (++)).
Qed.

Lemma parse_stops_at_failed_detail_witness :
  parse (cfg "ip")
    (λ _, Ok (flaky_service (Some (["v1"; "v2"] ++ "v3" :: ["v4"])) "v3"
                (PyException "timeout") detail_of))
  = (journal (build (cfg "ip") [rec_v1; rec_v2]),
     Raise (AnsibleParserError "Unable to get server information: {err}")).
Proof.
  apply (parse_stops_at_failed_detail (cfg "ip")
           (λ _, Ok (flaky_service (Some (["v1"; "v2"] ++ "v3" :: ["v4"])) "v3"
                       (PyException "timeout") detail_of))
           (flaky_service (Some (["v1"; "v2"] ++ "v3" :: ["v4"])) "v3"
              (PyException "timeout") detail_of)
           ["v1"; "v2"] ["v4"] "v3" (PyException "timeout") detail_of).
  - by left.
  - reflexivity.
  - reflexivity.
  - intros x Hx. apply elem_of_cons in Hx as [-> | Hx]; [reflexivity |].
    apply list_elem_of_singleton in Hx as ->. reflexivity.
  - intros x Hx (_ & _ & Hnil).
    apply elem_of_cons in Hx as [-> | Hx]; [discriminate Hnil |].
    apply list_elem_of_singleton in Hx as ->. discriminate Hnil.
  - reflexivity.
Defined.

(** * What a build touches *)

Lemma in_scope_mono g names names' c :
  names ⊆ names' → in_scope g names c → in_scope g names' c.
Proof. destruct c; simpl; set_solver. Qed.

Lemma parse_server_in_scope self r :
  online r →
  Forall (in_scope (group self) [servername_of self r])
    (journal (_parse_server self r)).
Proof.
  intros Hon.
  destruct (parse_server_online self r Hon)
    as [[_ [a ->]] | [-> | [_ ->]]];
    cbn [journal fst full_calls netcup_calls app];
    repeat apply Forall_cons_2; try apply Forall_nil_2; simpl; set_solver.
Qed.

Lemma loop_in_scope self rs :
  Forall (in_scope (group self) (online_names self rs))
    (journal (for_each rs (_parse_server self))).
Proof.
  unfold online_names. induction rs as [| x rs IH]; [apply Forall_nil_2 |].
  rewrite for_each_cons.
  assert (Hx : Forall (in_scope (group self)
                         (servername_of self <$> filter online (x :: rs)))
                 (journal (_parse_server self x))).
  { destruct (decide (online x)) as [Hon | Hoff].
    - eapply Forall_impl; [by apply parse_server_in_scope |].
      intros c. apply in_scope_mono.
      rewrite filter_cons_True, fmap_cons by done. set_solver.
    - rewrite parse_server_offline by done. apply Forall_nil_2. }
  destruct (bind_cases (_parse_server self x)
              (λ _, for_each rs (_parse_server self)))
    as [([] & _ & ->) | (e & _ & ->)]; cbn [journal fst]; [| done].
  apply Forall_app. split; [done |].
  eapply Forall_impl; [exact IH |].
  intros c. apply in_scope_mono.
  destruct (decide (online x)).
  - rewrite filter_cons_True, fmap_cons by done. set_solver.
  - by rewrite filter_cons_False.
Qed.

Lemma sink_call_frame g names c inv inv' :
  in_scope g names c → sink_call c inv = Some inv' →
  (∀ h, h ∉ names → hosts inv' !! h = hosts inv !! h)
  ∧ (∀ g', g' ≠ g → groups inv' !! g' = groups inv !! g').
Proof.
  destruct c as [g0 | h0 | h0 k v | g0 h0]; simpl.
  - intros -> Hc. destruct (groups inv !! g) as [m |] eqn:Hg;
      injection Hc as <-; [done |]. simpl. split; [done |].
    intros g' Hne. by rewrite lookup_insert_ne.
  - intros Hin Hc. destruct (hosts inv !! h0) as [vars |] eqn:Hh;
      injection Hc as <-; [done |]. simpl. split; [| done].
    intros h Hh'. rewrite lookup_insert_ne; [done |]. set_solver.
  - intros Hin Hc. destruct (hosts inv !! h0) as [vars |] eqn:Hh;
      [| discriminate Hc]. injection Hc as <-. simpl. split; [| done].
    intros h Hh'. rewrite lookup_insert_ne; [done |]. set_solver.
  - intros [-> Hin] Hc.
    destruct (groups inv !! g) as [m |] eqn:Hg; [| discriminate Hc].
    destruct (hosts inv !! h0) as [vars |] eqn:Hh; [| discriminate Hc].
    injection Hc as <-. simpl. split; [done |].
    intros g' Hne. by rewrite lookup_insert_ne.
Qed.

Lemma sink_run_frame g names cs : ∀ inv inv',
  Forall (in_scope g names) cs → sink_run cs inv = Some inv' →
  (∀ h, h ∉ names → hosts inv' !! h = hosts inv !! h)
  ∧ (∀ g', g' ≠ g → groups inv' !! g' = groups inv !! g').
Proof.
  induction cs as [| c cs IH]; intros inv inv' Hall Hrun.
  - injection Hrun as <-. done.
  - apply Forall_cons in Hall as [Hc Hcs]. simpl in Hrun.
    destruct (sink_call c inv) as [inv1 |] eqn:Hcall; [| discriminate Hrun].
    destruct (sink_call_frame _ _ _ _ _ Hc Hcall) as [Hh1 Hg1].
    destruct (IH _ _ Hcs Hrun) as [Hh2 Hg2]. split.
    + intros h Hh. by rewrite Hh2, Hh1.
    + intros g' Hne. by rewrite Hg2, Hg1.
Qed.

(** X8: a build only concerns the configured group and the hosts named
    after its online records: every call it issues is about them, so an
    inventory it is run on keeps every other host, with its variables,
    and every other group as they were, also when the build stops with
    an error. *)
Theorem build_touches_only_its_hosts (self : options) (rs : list server_data) :
  Forall (in_scope (group self) (online_names self rs))
    (journal (build self rs))
  ∧ ∀ inv inv',
      sink_run (journal (build self rs)) inv = Some inv' →
      (∀ h, h ∉ online_names self rs → hosts inv' !! h = hosts inv !! h)
      ∧ (∀ g', g' ≠ group self → groups inv' !! g' = groups inv !! g').
Proof.
  assert (H : Forall (in_scope (group self) (online_names self rs))
                (journal (build self rs))).
  { rewrite build_unfold. cbn [journal fst].
    apply Forall_cons_2; [done | apply loop_in_scope]. }
  split; [exact H |]. intros inv inv'. by apply sink_run_frame.
Qed.

(** * Options and names *)

Lemma parse_server_same_options (o1 o2 : options) (r : server_data) :
  same_build_options o1 o2 → _parse_server o1 r = _parse_server o2 r.
Proof.
  destruct o1 as [c1 p1 w1 g1 m1 s1 hp1 hs1], o2 as [c2 p2 w2 g2 m2 s2 hp2 hs2].
  intros H. unfold same_build_options in H. simpl in H.
  destruct H as (-> & -> & -> & ->). reflexivity.
Qed.

Lemma fetch_and_parse_same (o1 o2 : options) (Z1 Z2 : client) svc1 svc2 x :
  same_build_options o1 o2 →
  Z1 (wsdl_url o1) = Ok svc1 → Z2 (wsdl_url o2) = Ok svc2 →
  getVServerInformation svc1 (customer_id o1) (password o1) x "en"
    = getVServerInformation svc2 (customer_id o2) (password o2) x "en" →
  fetch_and_parse o1 Z1 x = fetch_and_parse o2 Z2 x.
Proof.
  intros Hsame Hc1 Hc2 Hd.
  destruct (getVServerInformation svc2 (customer_id o2) (password o2) x "en")
    as [info | e] eqn:Hi.
  - rewrite (fetch_and_parse_ok o1 Z1 svc1 x info),
      (fetch_and_parse_ok o2 Z2 svc2 x info) by done.
    by apply parse_server_same_options.
  - by rewrite (fetch_and_parse_raise o1 Z1 svc1 x e),
      (fetch_and_parse_raise o2 Z2 svc2 x e).
Qed.

(** X10: the plugin itself never writes the customer id, the password or
    the service URL into the inventory; they only go to the service.
    Two runs whose configurations agree on group, mode, prefix and
    suffix, and whose services give the same answers to the listing and
    to the detail calls, issue the same inventory calls and end the same
    way, whatever their credentials and URL. *)
Theorem credentials_only_reach_the_service
    (o1 o2 : options) (Z1 Z2 : client) (svc1 svc2 : service) :
  same_build_options o1 o2 →
  Z1 (wsdl_url o1) = Ok svc1 → Z2 (wsdl_url o2) = Ok svc2 →
  getVServers svc1 (customer_id o1) (password o1)
    = getVServers svc2 (customer_id o2) (password o2) →
  (∀ x, getVServerInformation svc1 (customer_id o1) (password o1) x "en"
        = getVServerInformation svc2 (customer_id o2) (password o2) x "en") →
  parse o1 Z1 = parse o2 Z2.
Proof.
  intros Hsame Hc1 Hc2 Hl Hd.
  assert (Hloaded : parse_loaded o1 Z1 = parse_loaded o2 Z2).
  { destruct (getVServers svc2 (customer_id o2) (password o2))
      as [[[| name names] |] | e] eqn:Hl2.
    - unfold parse_loaded.
      by rewrite (get_server_list_ok _ _ _ _ svc1 (Some [])),
        (get_server_list_ok _ _ _ _ svc2 (Some [])), !ret_bind.
    - rewrite (parse_listed o1 Z1 svc1 (name :: names)),
        (parse_listed o2 Z2 svc2 (name :: names)) by done.
      destruct Hsame as (Hg & Hrest). rewrite Hg.
      assert (Hloop : for_each (name :: names) (fetch_and_parse o1 Z1)
                      = for_each (name :: names) (fetch_and_parse o2 Z2));
        [| by rewrite Hloop].
      apply for_each_ext. intros x _.
      by apply (fetch_and_parse_same o1 o2 Z1 Z2 svc1 svc2).
    - unfold parse_loaded.
      by rewrite (get_server_list_ok _ _ _ _ svc1 None),
        (get_server_list_ok _ _ _ _ svc2 None), !ret_bind.
    - unfold parse_loaded, _get_server_list, lift, try_except, mbind, M_bind.
      simpl. rewrite Hc1, Hc2. simpl. by rewrite Hl, Hl2. }
  unfold parse, _read_config_data.
  destruct Hsame as (_ & -> & _). by rewrite Hloaded.
Qed.

Lemma credentials_only_reach_the_service_witness :
  parse (mk_options "1234" "awesomepassword" "https://a.example/ws?wsdl"
           "netcup" "name" "" "" ".example.org")
    (fixed_client (Some ["v1"; "v3"]) detail_of)
  = parse (mk_options "98765" "hunter2" "https://b.example/ws?wsdl"
             "netcup" "name" ".lan" "" ".example.org")
      (fixed_client (Some ["v1"; "v3"]) detail_of).
Proof.
  apply (credentials_only_reach_the_service _ _ _ _
           (mk_service (λ _ _, Ok (Some ["v1"; "v3"]))
              (λ _ _ name _, Ok (detail_of name)))
           (mk_service (λ _ _, Ok (Some ["v1"; "v3"]))
              (λ _ _ name _, Ok (detail_of name)))); done.
Defined.


Lemma list_ascii_of_append (a b : string) :
  String.list_ascii_of_string (a +:+ b)
  = String.list_ascii_of_string a ++ String.list_ascii_of_string b.
Proof. induction a as [| c a IH]; [done |]. simpl. by rewrite IH. Qed.

Lemma append_inj_r (a b s : string) : a +:+ s = b +:+ s → a = b.
Proof.
  intros H. apply (f_equal String.list_ascii_of_string) in H.
  rewrite !list_ascii_of_append in H. apply app_inv_tail in H.
  apply (f_equal String.string_of_list_ascii) in H.
  by rewrite !String.string_of_list_ascii_of_string in H.
Qed.

Lemma servername_base self r :
  servername_of self r = (hostname_prefix self +:+ base_name r)
                         +:+ hostname_suffix self.
Proof.
  unfold servername_of, base_name. by case_bool_decide.
Qed.

(** X11: under one configuration two records get the same display name
    exactly when they have the same base name, that is the nickname, or
    the server name when the nickname is empty.  A record named like
    another one's nickname therefore shares its host entry. *)
Theorem servername_collides_iff (self : options) (a b : server_data) :
  servername_of self a = servername_of self b ↔ base_name a = base_name b.
Proof.
  rewrite !servername_base. split; [| by intros ->].
  intros H. apply append_inj_r in H. by apply (inj _) in H.
Qed.



(** * File selection *)

Lemma endswith_unfold (path suffix : string) :
  endswith path suffix =
    if bool_decide (path = suffix) then true
    else match path with
         | EmptyString => false
         | String _ path' => endswith path' suffix
         end.
Proof. by destruct path. Qed.

Lemma endswith_spec (path suffix : string) :
  endswith path suffix = true ↔ ∃ p, path = p +:+ suffix.
Proof.
  split.
  - induction path as [| c path IH]; simpl; case_bool_decide as Heq.
    + intros _. exists "". by subst suffix.
    + discriminate.
    + intros _. exists "". by subst suffix.
    + intros H. destruct (IH H) as [p ->]. by exists (String c p).
  - intros [p ->]. induction p as [| c p IH].
    + change ("" +:+ suffix) with suffix.
      by rewrite endswith_unfold, bool_decide_eq_true_2.
    + change (String c p +:+ suffix) with (String c (p +:+ suffix)).
      rewrite endswith_unfold. case_bool_decide; [done | exact IH].
Qed.

(** X13: a file is accepted exactly when the base class accepts it and
    its path ends with 'netcup.yaml' or 'netcup.yml'; nothing is asked
    of what comes before that ending. *)
Theorem verify_file_iff (super_verify_file : string → bool) (path : string) :
  verify_file super_verify_file path = true ↔
  super_verify_file path = true
  ∧ ∃ p, path = p +:+ "netcup.yaml" ∨ path = p +:+ "netcup.yml".
Proof.
  unfold verify_file. cbn [existsb].
  destruct (super_verify_file path); [| by split; [| intros [? _]]].
  rewrite orb_false_r.
  destruct (endswith path "netcup.yaml") eqn:Hy;
    destruct (endswith path "netcup.yml") eqn:Hm; simpl.
  - apply endswith_spec in Hy as [p ->]. split; [| done].
    intros _. split; [done |]. exists p. by left.
  - apply endswith_spec in Hy as [p ->]. split; [| done].
    intros _. split; [done |]. exists p. by left.
  - apply endswith_spec in Hm as [p ->]. split; [| done].
    intros _. split; [done |]. exists p. by right.
  - split; [done |]. intros [_ [p [-> | ->]]].
    + assert (endswith (p +:+ "netcup.yaml") "netcup.yaml" = true) as H
        by (apply endswith_spec; by exists p).
      congruence.
    + assert (endswith (p +:+ "netcup.yml") "netcup.yml" = true) as H
        by (apply endswith_spec; by exists p).
      congruence.
Qed.

(** * Running a build again, and the order of the records *)

Lemma build_result_ok_iff self rs :
  result (build self rs) = Ok tt ↔
  ∀ r, r ∈ rs → result (_parse_server self r) = Ok tt.
Proof.
  rewrite build_unfold. cbn [result snd]. split.
  - apply for_each_ok_each.
  - apply for_each_all_ok.
Qed.

(** X14: running the same build again on the inventory it has produced
    changes nothing: every call of the second run is accepted and the
    inventory is the same afterwards. *)
Theorem rebuild_changes_nothing (self : options) (rs : list server_data) :
  result (build self rs) = Ok tt →
  ∃ inv,
    sink_run (journal (build self rs)) empty_inventory = Some inv
    ∧ sink_run (journal (build self rs)) inv = Some inv.
Proof.
  intros Hok.
  destruct (build_commit self rs Hok) as (inv & Hrun & Hdom & Hgr & Hval).
  exists inv. split; [exact Hrun |].
  assert (Hlook : ∀ h, h ∈ online_names self rs →
            ∃ sd, online sd ∧ result (_parse_server self sd) = Ok tt
              ∧ servername_of self sd = h
              ∧ hosts inv !! h = Some (host_vars self sd)
              ∧ ∃ pre post, rs = pre ++ sd :: post
                  ∧ h ∉ online_names self post).
  { intros h Hh.
    destruct (names_last_occurrence self rs h Hh)
      as (pre & sd & post & Heq & Hon & Hn & Hlast).
    exists sd. split; [done |]. split.
    { apply (build_ok_each self rs Hok). rewrite Heq. set_solver. }
    split; [done |]. split; [| by exists pre, post].
    rewrite <- Hn. apply (Hval pre sd post); [done .. |]. by rewrite Hn. }
  assert (Htidy : tidy self inv).
  { intros h vars Hh.
    assert (h ∈ online_names self rs) as Hin.
    { apply (elem_of_list_to_set (C := gset string)). rewrite <- Hdom.
      apply elem_of_dom. by eexists. }
    destruct (Hlook h Hin) as (sd & Hon & Hsd & _ & Hv & _).
    rewrite Hv in Hh. injection Hh as <-. by rewrite host_vars_dom. }
  assert (Hg : groups inv !! group self
               = Some (list_to_set (online_names self rs))).
  { rewrite Hgr. apply lookup_singleton_eq. }
  rewrite build_unfold in Hok |- *. cbn [journal result fst snd] in Hok |- *.
  cbn [sink_run sink_call]. rewrite Hg.
  destruct (loop_commit self rs inv _ Hok Hg Htidy)
    as (inv2 & Hrun2 & Hdom2 & Hgr2 & Hkeep2 & Hval2).
  rewrite Hrun2. f_equal. destruct inv as [hs gs], inv2 as [hs2 gs2].
  simpl in *. f_equal.
  - apply map_eq. intros h.
    destruct (decide (h ∈ online_names self rs)) as [Hin | Hout].
    + destruct (Hlook h Hin) as (sd & Hon & _ & Hn & Hv & pre & post & Heq & Hl).
      rewrite Hv, <- Hn. apply (Hval2 pre sd post); [done .. |]. by rewrite Hn.
    + by apply Hkeep2.
  - rewrite Hgr2, Hgr, insert_singleton_eq. f_equal. set_solver.
Qed.

Lemma rebuild_changes_nothing_witness :
  ∃ inv,
    sink_run (journal (build (cfg "ip") [rec_web; rec_v2; rec_web'; rec_v1]))
      empty_inventory = Some inv
    ∧ sink_run (journal (build (cfg "ip") [rec_web; rec_v2; rec_web'; rec_v1]))
        inv = Some inv.
Proof.
  apply (rebuild_changes_nothing (cfg "ip") [rec_web; rec_v2; rec_web'; rec_v1]).
  reflexivity.
Defined.

(** X15: when the display names of the online records are pairwise
    distinct, the order of the records does not matter for the
    inventory: a build over any reordering of the list also returns
    normally and leaves the same inventory. *)
Theorem record_order_is_irrelevant
    (self : options) (rs rs' : list server_data) :
  NoDup (online_names self rs) → rs ≡ₚ rs' →
  result (build self rs) = Ok tt →
  result (build self rs') = Ok tt
  ∧ ∃ inv,
      sink_run (journal (build self rs)) empty_inventory = Some inv
      ∧ sink_run (journal (build self rs')) empty_inventory = Some inv.
Proof.
  intros Hnd Hperm Hok.
  assert (Hok' : result (build self rs') = Ok tt).
  { apply build_result_ok_iff. intros r Hr.
    apply (build_ok_each self rs Hok). by rewrite Hperm. }
  split; [exact Hok' |].
  assert (Hnames : online_names self rs ≡ₚ online_names self rs').
  { unfold online_names. by rewrite Hperm. }
  assert (Hnd' : NoDup (online_names self rs')) by by rewrite <- Hnames.
  destruct (build_commit self rs Hok) as (inv & Hrun & Hdom & Hgr & Hval).
  destruct (build_commit self rs' Hok') as (inv' & Hrun' & Hdom' & Hgr' & Hval').
  exists inv. split; [exact Hrun |]. rewrite Hrun'. f_equal.
  assert (Hsets : (list_to_set (online_names self rs') : gset string)
                  = list_to_set (online_names self rs))
    by by rewrite Hnames.
  assert (Hone : ∀ l inv0 sd,
            NoDup (online_names self l) →
            (∀ pre sd post, l = pre ++ sd :: post → online sd →
               servername_of self sd ∉ online_names self post →
               hosts inv0 !! servername_of self sd = Some (host_vars self sd)) →
            sd ∈ l → online sd →
            hosts inv0 !! servername_of self sd = Some (host_vars self sd)).
  { intros l inv0 sd Hndl Hv Hsd Hon.
    destruct (list_elem_of_split l sd Hsd) as (pre & post & ->).
    apply (Hv pre sd post); [done .. |].
    rewrite online_names_app, online_names_cons_online in Hndl by done.
    apply NoDup_app in Hndl as (_ & _ & Hndl).
    by apply NoDup_cons in Hndl as [? _]. }
  destruct inv as [hs gs], inv' as [hs' gs']. simpl in *. f_equal.
  - apply map_eq. intros h.
    destruct (decide (h ∈ online_names self rs)) as [Hin | Hout].
    + apply online_names_elem in Hin as (sd & Hsd & Hon & <-).
      pose proof (Hone rs (mk_inventory hs gs) sd Hnd Hval Hsd Hon) as H1.
      assert (sd ∈ rs') as Hsd' by by rewrite <- Hperm.
      pose proof (Hone rs' (mk_inventory hs' gs') sd Hnd' Hval' Hsd' Hon) as H2.
      simpl in H1, H2. by rewrite H1, H2.
    + assert (hs !! h = None) as H1
        by (apply not_elem_of_dom; rewrite Hdom; set_solver).
      assert (hs' !! h = None) as H2
        by (apply not_elem_of_dom; rewrite Hdom', Hsets; set_solver).
      by rewrite H1, H2.
  - by rewrite Hgr, Hgr', Hsets.
Qed.

Lemma record_order_is_irrelevant_witness :
  result (build (cfg "name") [rec_v1; rec_v2; rec_web]) = Ok tt
  ∧ ∃ inv,
      sink_run (journal (build (cfg "name") [rec_web; rec_v1; rec_v2]))
        empty_inventory = Some inv
      ∧ sink_run (journal (build (cfg "name") [rec_v1; rec_v2; rec_web]))
          empty_inventory = Some inv.
Proof.
  apply (record_order_is_irrelevant (cfg "name")
           [rec_web; rec_v1; rec_v2] [rec_v1; rec_v2; rec_web]).
  - unfold online_names. simpl. apply NoDup_cons. split; [set_solver |].
    apply NoDup_singleton.
  - apply Permutation_cons_append.
  - reflexivity.
Defined.

(** * More on modes, addresses and entries *)

(** X16: mode 'suffix' is mode 'ip': two configurations that differ only
    in having one mode or the other (and in options the build does not
    read) issue the same calls and end the same way over every list of
    records, failures included. *)
Theorem suffix_mode_is_ip_mode (o1 o2 : options) (rs : list server_data) :
  ansible_host_type o1 = "ip" → ansible_host_type o2 = "suffix" →
  group o1 = group o2 → hostname_prefix o1 = hostname_prefix o2 →
  hostname_suffix o1 = hostname_suffix o2 →
  build o1 rs = build o2 rs.
Proof.
  destruct o1 as [c1 p1 w1 g1 m1 s1 hp1 hs1], o2 as [c2 p2 w2 g2 m2 s2 hp2 hs2].
  simpl. intros -> -> -> -> ->. rewrite !build_unfold. simpl.
  assert (H : for_each rs
                (_parse_server (mk_options c1 p1 w1 g2 "ip" s1 hp2 hs2))
              = for_each rs
                  (_parse_server (mk_options c2 p2 w2 g2 "suffix" s2 hp2 hs2)));
    [| by rewrite H].
  apply for_each_ext. intros r _. reflexivity.
Qed.

Lemma suffix_mode_is_ip_mode_witness :
  build (cfg "ip") [rec_v1; rec_web; rec_noip; rec_web']
  = build (cfg "suffix") [rec_v1; rec_web; rec_noip; rec_web'].
Proof.
  apply (suffix_mode_is_ip_mode (cfg "ip") (cfg "suffix")); reflexivity.
Defined.

(** X17: of the IP list only the first element is read: two records
    that agree on everything but the IPs after the first are processed
    alike, calls and outcome. *)
Theorem only_first_ip_matters (self : options) (r r' : server_data) :
  vServerName r = vServerName r' → vServerNickname r = vServerNickname r' →
  status r = status r' → rebootRecommended r = rebootRecommended r' →
  head (ips r) = head (ips r') →
  _parse_server self r = _parse_server self r'.
Proof.
  destruct r as [n k s i b], r' as [n' k' s' i' b']. simpl.
  intros -> -> -> -> Hhead. unfold _parse_server, getitem.
  replace (i !! 0) with (head i) by by destruct i.
  replace (i' !! 0) with (head i') by by destruct i'.
  cbn [ips]. by rewrite Hhead.
Qed.

Lemma only_first_ip_matters_witness :
  _parse_server (cfg "ip")
    (mk_server_data "v3" "web" "online" ["9.9.9.9"; "2a03:4000::1"] true)
  = _parse_server (cfg "ip") rec_web.
Proof.
  apply only_first_ip_matters; reflexivity.
Defined.

(** X18: after a build that returns normally every host entry of the
    inventory is that of one online record of the list: its name is the
    display name of the record, all its variables are the ones that
    record writes (variables of two records are never mixed under one
    name), its [netcup_status] is 'online', and its variable names are
    those the configuration writes. *)
Theorem every_entry_is_one_online_record
    (self : options) (rs : list server_data) :
  result (build self rs) = Ok tt →
  ∃ inv,
    sink_run (journal (build self rs)) empty_inventory = Some inv
    ∧ ∀ h vars, hosts inv !! h = Some vars →
        ∃ sd, sd ∈ rs ∧ online sd ∧ servername_of self sd = h
          ∧ vars = host_vars self sd
          ∧ vars !! "netcup_status" = Some (VStr "online")
          ∧ vars !! "netcup_server_name" = Some (VStr (vServerName sd))
          ∧ dom vars = list_to_set (written_keys self).
Proof.
  intros Hok.
  destruct (build_commit self rs Hok) as (inv & Hrun & Hdom & Hgr & Hval).
  exists inv. split; [exact Hrun |]. intros h vars Hh.
  assert (h ∈ online_names self rs) as Hin.
  { apply (elem_of_list_to_set (C := gset string)). rewrite <- Hdom.
    apply elem_of_dom. by eexists. }
  destruct (names_last_occurrence self rs h Hin)
    as (pre & sd & post & Heq & Hon & Hn & Hlast).
  assert (Hsd : sd ∈ rs) by (rewrite Heq; set_solver).
  pose proof (build_ok_each self rs Hok sd Hsd) as Hsdok.
  rewrite <- Hn in Hh, Hlast.
  rewrite (Hval pre sd post Heq Hon Hlast) in Hh. injection Hh as <-.
  destruct (host_vars_lookup self sd Hon Hsdok) as (H1 & _ & _ & H4 & _).
  exists sd. repeat split; try done.
  - rewrite H4. by rewrite Hon.
  - by apply host_vars_dom.
Qed.

Lemma every_entry_is_one_online_record_witness :
  ∃ inv,
    sink_run (journal (build (cfg "ip") [rec_web; rec_v2; rec_web']))
      empty_inventory = Some inv
    ∧ ∀ h vars, hosts inv !! h = Some vars →
        ∃ sd, sd ∈ [rec_web; rec_v2; rec_web'] ∧ online sd
          ∧ servername_of (cfg "ip") sd = h
          ∧ vars = host_vars (cfg "ip") sd
          ∧ vars !! "netcup_status" = Some (VStr "online")
          ∧ vars !! "netcup_server_name" = Some (VStr (vServerName sd))
          ∧ dom vars = list_to_set (written_keys (cfg "ip")).
Proof.
  apply (every_entry_is_one_online_record (cfg "ip")
           [rec_web; rec_v2; rec_web']).
  reflexivity.
Defined.
